(** * RenderGeojson request filter: a shallow embedding of
      [qgis_server_render_geojson/render_geojson.py]

    The file follows the Python module top to bottom: the interpreter
    builtins the filter relies on ([str.upper], [str.split], [str.replace],
    [in], [os.path.join], [int], [float]), the exceptions, the request
    object and the collaborators, then [_resolve_url], [handle_requests]
    and [responseComplete], and finally the properties of the filter. *)

From Stdlib Require Import ZArith String Ascii List Lia.
From Stdlib Require Import Floats.SpecFloat.
From stdpp Require Import base option list gmap strings pretty.
Import ListNotations.

Local Open Scope Z_scope.
Local Open Scope string_scope.

(** ** Python strings

    A [str] is modelled by the string of its UTF-8 bytes; substring
    search, splitting and replacement on the bytes are those on the
    characters.  The tables of characters are those of Unicode 14.0.0,
    the version of CPython 3.11. *)
Module PyStr.
Local Open Scope Z_scope.

Definition dquote : ascii := "034"%char.
Definition squote : ascii := "039"%char.
Definition backslash : ascii := "092"%char.

(** A byte by its number, and the number of a byte. *)
Definition byte (n : Z) : ascii := ascii_of_N (Z.to_N n).
Definition code (c : ascii) : Z := Z.of_N (N_of_ascii c).

Definition is_digit (c : ascii) : bool := (48 <=? code c) && (code c <=? 57).

Definition digit_val (c : ascii) : Z := code c - 48.

(** [Py_ISSPACE], the white space the numeric constructors skip around an
    ASCII literal: TAB, LF, VT, FF, CR and SPACE. *)
Definition is_space (c : ascii) : bool :=
  ((9 <=? code c) && (code c <=? 13)) || (code c =? 32).

Fixpoint is_ascii (s : string) : bool :=
  match s with
  | EmptyString => true
  | String c s' => (code c <? 128) && is_ascii s'
  end.

(** The UTF-8 bytes of a code point. *)
Definition utf8 (c : Z) : string :=
  if c <? 128 then String (byte c) EmptyString
  else if c <? 2048 then
    String (byte (192 + c / 64)) (String (byte (128 + c mod 64)) EmptyString)
  else if c <? 65536 then
    String (byte (224 + c / 4096))
      (String (byte (128 + (c / 64) mod 64)) (String (byte (128 + c mod 64)) EmptyString))
  else
    String (byte (240 + c / 262144))
      (String (byte (128 + (c / 4096) mod 64))
         (String (byte (128 + (c / 64) mod 64)) (String (byte (128 + c mod 64)) EmptyString))).

Fixpoint utf8_all (l : list Z) : string :=
  match l with
  | [] => EmptyString
  | c :: l' => utf8 c +:+ utf8_all l'
  end.

Definition lower_char (c : ascii) : ascii :=
  if (65 <=? code c) && (code c <=? 90) then byte (code c + 32) else c.

(** [s.lower()] of an ASCII string *)
Fixpoint lower (s : string) : string :=
  match s with
  | EmptyString => EmptyString
  | String c s' => String (lower_char c) (lower s')
  end.

(** [s.startswith(p)] *)
Fixpoint startswith (p s : string) : bool :=
  match p, s with
  | EmptyString, _ => true
  | String a p', String b s' => if Ascii.eqb a b then startswith p' s' else false
  | String _ _, EmptyString => false
  end.

(** [s.endswith(p)] for a one-character [p] *)
Fixpoint endswith_char (c : ascii) (s : string) : bool :=
  match s with
  | EmptyString => false
  | String a EmptyString => Ascii.eqb a c
  | String _ s' => endswith_char c s'
  end.

(** [p in s] *)
Fixpoint contains (p s : string) : bool :=
  startswith p s ||
  match s with
  | EmptyString => false
  | String _ s' => contains p s'
  end.

(** [s.replace(old, new)] for a non-empty [old]: every occurrence, left
    to right, without overlap.  [skip] counts the characters of a matched
    occurrence that are still to be dropped. *)
Fixpoint replace_from (skip : nat) (old new s : string) : string :=
  match s with
  | EmptyString => EmptyString
  | String c s' =>
      match skip with
      | S k => replace_from k old new s'
      | O =>
          if startswith old s
          then new +:+ replace_from (String.length old - 1) old new s'
          else String c (replace_from O old new s')
      end
  end.

Definition replace (old new s : string) : string := replace_from O old new s.

(** [s.split(sep)] for a one-character separator: one more component than
    there are separators. *)
Fixpoint split_from (sep : ascii) (cur : string) (s : string) : list string :=
  match s with
  | EmptyString => [String.rev cur]
  | String c s' =>
      if Ascii.eqb c sep
      then String.rev cur :: split_from sep EmptyString s'
      else split_from sep (String c cur) s'
  end.

Definition split (sep : ascii) (s : string) : list string :=
  split_from sep EmptyString s.

(** The code points with a capital of one code point, as ranges
    [(first, last, step, delta)]: every [step]-th code point from [first]
    to [last] has the capital [delta] further (Unicode 14.0.0). *)
Definition upper_ranges : list (Z * Z * Z * Z) :=
  [(97, 122, 1, (-32)); (181, 181, 1, 743); (224, 246, 1, (-32));
   (248, 254, 1, (-32)); (255, 255, 1, 121); (257, 303, 2, (-1));
   (305, 305, 1, (-232)); (307, 311, 2, (-1)); (314, 328, 2, (-1));
   (331, 375, 2, (-1)); (378, 382, 2, (-1)); (383, 383, 1, (-300));
   (384, 384, 1, 195); (387, 389, 2, (-1)); (392, 392, 1, (-1));
   (396, 396, 1, (-1)); (402, 402, 1, (-1)); (405, 405, 1, 97);
   (409, 409, 1, (-1)); (410, 410, 1, 163); (414, 414, 1, 130);
   (417, 421, 2, (-1)); (424, 424, 1, (-1)); (429, 429, 1, (-1));
   (432, 432, 1, (-1)); (436, 438, 2, (-1)); (441, 441, 1, (-1));
   (445, 445, 1, (-1)); (447, 447, 1, 56); (453, 453, 1, (-1));
   (454, 454, 1, (-2)); (456, 456, 1, (-1)); (457, 457, 1, (-2));
   (459, 459, 1, (-1)); (460, 460, 1, (-2)); (462, 476, 2, (-1));
   (477, 477, 1, (-79)); (479, 495, 2, (-1)); (498, 498, 1, (-1));
   (499, 499, 1, (-2)); (501, 501, 1, (-1)); (505, 543, 2, (-1));
   (547, 563, 2, (-1)); (572, 572, 1, (-1)); (575, 576, 1, 10815);
   (578, 578, 1, (-1)); (583, 591, 2, (-1)); (592, 592, 1, 10783);
   (593, 593, 1, 10780); (594, 594, 1, 10782); (595, 595, 1, (-210));
   (596, 596, 1, (-206)); (598, 599, 1, (-205)); (601, 601, 1, (-202));
   (603, 603, 1, (-203)); (604, 604, 1, 42319); (608, 608, 1, (-205));
   (609, 609, 1, 42315); (611, 611, 1, (-207)); (613, 613, 1, 42280);
   (614, 614, 1, 42308); (616, 616, 1, (-209)); (617, 617, 1, (-211));
   (618, 618, 1, 42308); (619, 619, 1, 10743); (620, 620, 1, 42305);
   (623, 623, 1, (-211)); (625, 625, 1, 10749); (626, 626, 1, (-213));
   (629, 629, 1, (-214)); (637, 637, 1, 10727); (640, 640, 1, (-218));
   (642, 642, 1, 42307); (643, 643, 1, (-218)); (647, 647, 1, 42282);
   (648, 648, 1, (-218)); (649, 649, 1, (-69)); (650, 651, 1, (-217));
   (652, 652, 1, (-71)); (658, 658, 1, (-219)); (669, 669, 1, 42261);
   (670, 670, 1, 42258); (837, 837, 1, 84); (881, 883, 2, (-1));
   (887, 887, 1, (-1)); (891, 893, 1, 130); (940, 940, 1, (-38));
   (941, 943, 1, (-37)); (945, 961, 1, (-32)); (962, 962, 1, (-31));
   (963, 971, 1, (-32)); (972, 972, 1, (-64)); (973, 974, 1, (-63));
   (976, 976, 1, (-62)); (977, 977, 1, (-57)); (981, 981, 1, (-47));
   (982, 982, 1, (-54)); (983, 983, 1, (-8)); (985, 1007, 2, (-1));
   (1008, 1008, 1, (-86)); (1009, 1009, 1, (-80)); (1010, 1010, 1, 7);
   (1011, 1011, 1, (-116)); (1013, 1013, 1, (-96)); (1016, 1016, 1, (-1));
   (1019, 1019, 1, (-1)); (1072, 1103, 1, (-32)); (1104, 1119, 1, (-80));
   (1121, 1153, 2, (-1)); (1163, 1215, 2, (-1)); (1218, 1230, 2, (-1));
   (1231, 1231, 1, (-15)); (1233, 1327, 2, (-1)); (1377, 1414, 1, (-48));
   (4304, 4346, 1, 3008); (4349, 4351, 1, 3008); (5112, 5117, 1, (-8));
   (7296, 7296, 1, (-6254)); (7297, 7297, 1, (-6253)); (7298, 7298, 1, (-6244));
   (7299, 7300, 1, (-6242)); (7301, 7301, 1, (-6243)); (7302, 7302, 1, (-6236));
   (7303, 7303, 1, (-6181)); (7304, 7304, 1, 35266); (7545, 7545, 1, 35332);
   (7549, 7549, 1, 3814); (7566, 7566, 1, 35384); (7681, 7829, 2, (-1));
   (7835, 7835, 1, (-59)); (7841, 7935, 2, (-1)); (7936, 7943, 1, 8);
   (7952, 7957, 1, 8); (7968, 7975, 1, 8); (7984, 7991, 1, 8);
   (8000, 8005, 1, 8); (8017, 8023, 2, 8); (8032, 8039, 1, 8);
   (8048, 8049, 1, 74); (8050, 8053, 1, 86); (8054, 8055, 1, 100);
   (8056, 8057, 1, 128); (8058, 8059, 1, 112); (8060, 8061, 1, 126);
   (8112, 8113, 1, 8); (8126, 8126, 1, (-7205)); (8144, 8145, 1, 8);
   (8160, 8161, 1, 8); (8165, 8165, 1, 7); (8526, 8526, 1, (-28));
   (8560, 8575, 1, (-16)); (8580, 8580, 1, (-1)); (9424, 9449, 1, (-26));
   (11312, 11359, 1, (-48)); (11361, 11361, 1, (-1)); (11365, 11365, 1, (-10795));
   (11366, 11366, 1, (-10792)); (11368, 11372, 2, (-1)); (11379, 11379, 1, (-1));
   (11382, 11382, 1, (-1)); (11393, 11491, 2, (-1)); (11500, 11502, 2, (-1));
   (11507, 11507, 1, (-1)); (11520, 11557, 1, (-7264)); (11559, 11559, 1, (-7264));
   (11565, 11565, 1, (-7264)); (42561, 42605, 2, (-1)); (42625, 42651, 2, (-1));
   (42787, 42799, 2, (-1)); (42803, 42863, 2, (-1)); (42874, 42876, 2, (-1));
   (42879, 42887, 2, (-1)); (42892, 42892, 1, (-1)); (42897, 42899, 2, (-1));
   (42900, 42900, 1, 48); (42903, 42921, 2, (-1)); (42933, 42947, 2, (-1));
   (42952, 42954, 2, (-1)); (42961, 42961, 1, (-1)); (42967, 42969, 2, (-1));
   (42998, 42998, 1, (-1)); (43859, 43859, 1, (-928)); (43888, 43967, 1, (-38864));
   (65345, 65370, 1, (-32)); (66600, 66639, 1, (-40)); (66776, 66811, 1, (-40));
   (66967, 67003, 2, (-39)); (66968, 66976, 2, (-39)); (66980, 66992, 2, (-39));
   (66996, 67000, 2, (-39)); (67004, 67004, 1, (-39)); (68800, 68850, 1, (-64));
   (71872, 71903, 1, (-32)); (93792, 93823, 1, (-32)); (125218, 125251, 1, (-34))].

(** The code points whose capital is several code points. *)
Definition upper_special : list (Z * list Z) :=
  [(223, [83; 83]); (329, [700; 78]); (496, [74; 780]);
   (912, [921; 776; 769]); (944, [933; 776; 769]); (1415, [1333; 1362]);
   (7830, [72; 817]); (7831, [84; 776]); (7832, [87; 778]);
   (7833, [89; 778]); (7834, [65; 702]); (8016, [933; 787]);
   (8018, [933; 787; 768]); (8020, [933; 787; 769]); (8022, [933; 787; 834]);
   (8064, [7944; 921]); (8065, [7945; 921]); (8066, [7946; 921]);
   (8067, [7947; 921]); (8068, [7948; 921]); (8069, [7949; 921]);
   (8070, [7950; 921]); (8071, [7951; 921]); (8072, [7944; 921]);
   (8073, [7945; 921]); (8074, [7946; 921]); (8075, [7947; 921]);
   (8076, [7948; 921]); (8077, [7949; 921]); (8078, [7950; 921]);
   (8079, [7951; 921]); (8080, [7976; 921]); (8081, [7977; 921]);
   (8082, [7978; 921]); (8083, [7979; 921]); (8084, [7980; 921]);
   (8085, [7981; 921]); (8086, [7982; 921]); (8087, [7983; 921]);
   (8088, [7976; 921]); (8089, [7977; 921]); (8090, [7978; 921]);
   (8091, [7979; 921]); (8092, [7980; 921]); (8093, [7981; 921]);
   (8094, [7982; 921]); (8095, [7983; 921]); (8096, [8040; 921]);
   (8097, [8041; 921]); (8098, [8042; 921]); (8099, [8043; 921]);
   (8100, [8044; 921]); (8101, [8045; 921]); (8102, [8046; 921]);
   (8103, [8047; 921]); (8104, [8040; 921]); (8105, [8041; 921]);
   (8106, [8042; 921]); (8107, [8043; 921]); (8108, [8044; 921]);
   (8109, [8045; 921]); (8110, [8046; 921]); (8111, [8047; 921]);
   (8114, [8122; 921]); (8115, [913; 921]); (8116, [902; 921]);
   (8118, [913; 834]); (8119, [913; 834; 921]); (8124, [913; 921]);
   (8130, [8138; 921]); (8131, [919; 921]); (8132, [905; 921]);
   (8134, [919; 834]); (8135, [919; 834; 921]); (8140, [919; 921]);
   (8146, [921; 776; 768]); (8147, [921; 776; 769]); (8150, [921; 834]);
   (8151, [921; 776; 834]); (8162, [933; 776; 768]); (8163, [933; 776; 769]);
   (8164, [929; 787]); (8166, [933; 834]); (8167, [933; 776; 834]);
   (8178, [8186; 921]); (8179, [937; 921]); (8180, [911; 921]);
   (8182, [937; 834]); (8183, [937; 834; 921]); (8188, [937; 921]);
   (64256, [70; 70]); (64257, [70; 73]); (64258, [70; 76]);
   (64259, [70; 70; 73]); (64260, [70; 70; 76]); (64261, [83; 84]);
   (64262, [83; 84]); (64275, [1348; 1350]); (64276, [1348; 1333]);
   (64277, [1348; 1339]); (64278, [1358; 1350]); (64279, [1348; 1341])].

(** The code points of a range [(first, last, step, delta)], each with
    its capital. *)
Definition range_members (r : Z * Z * Z * Z) : list (Z * list Z) :=
  let '(first, last, step, delta) := r in
  (fun i => (first + step * i, [first + step * i + delta])) <$> seqZ 0 ((last - first) / step + 1).

(** The characters that [str.upper] changes, each with its capital, both
    in UTF-8. *)
Definition upper_table : list (string * string) :=
  Eval vm_compute in
    (fun cu : Z * list Z => (utf8 cu.1, utf8_all cu.2))
      <$> (concat (range_members <$> upper_ranges) ++ upper_special)%list.

(** The entry of the character [s] starts with, if [str.upper] changes
    it.  (No character of UTF-8 is the beginning of another.) *)
Definition upper_key (s : string) : option (string * string) :=
  List.find (fun ku : string * string => startswith ku.1 s) upper_table.

(** [s.upper()]: every character is replaced by its capital, which may
    be several characters.  [skip] counts the bytes of a replaced
    character that are still to be dropped. *)
Fixpoint upper_from (skip : nat) (s : string) : string :=
  match s with
  | EmptyString => EmptyString
  | String b s' =>
      match skip with
      | S k => upper_from k s'
      | O =>
          match upper_key s with
          | Some (k, u) => u +:+ upper_from (String.length k - 1) s'
          | None => String b (upper_from O s')
          end
      end
  end.

Definition upper (s : string) : string := upper_from O s.

End PyStr.

(** [os.path.join(a, b)] of [posixpath]: an absolute [b] discards [a]. *)
Definition os_path_join (a b : string) : string :=
  if PyStr.startswith "/" b then b
  else if String.eqb a "" || PyStr.endswith_char "/" a then a +:+ b
  else a +:+ "/" +:+ b.


(** ** Python numbers from strings *)
Module PyNum.
Import PyStr.
Local Open Scope Z_scope.

(** The first code point of each run of ten decimal digits above ASCII
    (general category Nd; Unicode 14.0.0): the digit with value [d] is the
    [d]-th of its run. *)
Definition decimal_runs : list Z :=
  [1632; 1776; 1984; 2406; 2534; 2662; 2790; 2918; 3046; 3174;
   3302; 3430; 3558; 3664; 3792; 3872; 4160; 4240; 6112; 6160;
   6470; 6608; 6784; 6800; 6992; 7088; 7232; 7248; 42528; 43216;
   43264; 43472; 43504; 43600; 44016; 65296; 66720; 68912; 69734; 69872;
   69942; 70096; 70384; 70736; 70864; 71248; 71360; 71472; 71904; 72016;
   72784; 73040; 73120; 92768; 92864; 93008; 120782; 120792; 120802; 120812;
   120822; 123200; 123632; 125264; 130032].

(** The white space above ASCII (Unicode 14.0.0). *)
Definition unicode_spaces : list Z :=
  [133; 160; 5760; 8192; 8193; 8194; 8195; 8196; 8197; 8198;
   8199; 8200; 8201; 8202; 8232; 8233; 8239; 8287; 12288].

(** The characters above ASCII that the numeric constructors read as a
    space or as a decimal digit, each in UTF-8 with the ASCII character
    it stands for. *)
Definition numeric_table : list (string * ascii) :=
  Eval vm_compute in
    (((fun c => (utf8 c, " "%char)) <$> unicode_spaces) ++
     concat ((fun first => (fun d => (utf8 (first + d), byte (48 + d))) <$> seqZ 0 10)
               <$> decimal_runs))%list.

Definition numeric_key (s : string) : option (string * ascii) :=
  List.find (fun ka : string * ascii => startswith ka.1 s) numeric_table.

(** The ASCII reading of a string that is not ASCII: an ASCII character
    other than DEL stays, a space or a decimal digit of Unicode becomes
    [SPACE] or its ASCII digit, and the first other character becomes
    [?] and ends the string. *)
Fixpoint to_ascii_from (skip : nat) (s : string) : string :=
  match s with
  | EmptyString => EmptyString
  | String b s' =>
      match skip with
      | S k => to_ascii_from k s'
      | O =>
          if code b <? 127 then String b (to_ascii_from O s')
          else
            match numeric_key s with
            | Some (k, a) => String a (to_ascii_from (String.length k - 1) s')
            | None => "?"
            end
      end
  end.

(** What [int] and [float] parse: an ASCII string as it is, any other
    string in its ASCII reading. *)
Definition to_ascii (s : string) : string :=
  if is_ascii s then s else to_ascii_from O s.

Fixpoint lstrip (s : string) : string :=
  match s with
  | String c s' => if is_space c then lstrip s' else s
  | EmptyString => EmptyString
  end.

Definition strip (s : string) : string :=
  String.rev (lstrip (String.rev (lstrip s))).

(** An optional sign in front of [s]: [(negative, rest)]. *)
Definition take_sign (s : string) : bool * string :=
  match s with
  | String "-" s' => (true, s')
  | String "+" s' => (false, s')
  | _ => (false, s)
  end.

(** The digits at the front of [s], single underscores allowed between
    them: their value on top of [acc], their number on top of [n], and
    the rest of the string; [None] for two underscores in a row or an
    underscore at the end of the digits.  [after_us] tells whether the
    previous character was an underscore. *)
Fixpoint scan_digits (after_us : bool) (acc : Z) (n : nat) (s : string)
  : option (Z * nat * string) :=
  match s with
  | String c s' =>
      if is_digit c then scan_digits false (acc * 10 + digit_val c) (S n) s'
      else if Ascii.eqb c "_" then
        (if after_us then None else scan_digits true acc n s')
      else if after_us then None else Some (acc, n, s)
  | EmptyString => if after_us then None else Some (acc, n, s)
  end.

(** [sys.int_info.default_max_str_digits] (CPython 3.11 and later) *)
Definition max_str_digits : nat := 4300.

Inductive int_parse : Type :=
  | IntValue (n : Z)
  | IntInvalid
  | IntTooLong (digits : nat).

(** [int(s)] for a [str] in base 10: white space, a sign, digits with
    single underscores between them, white space. *)
Definition parse_int (s : string) : int_parse :=
  let '(neg, ds) := take_sign (lstrip (to_ascii s)) in
  match ds with
  | String "_" _ => IntInvalid
  | _ =>
      match scan_digits false 0 O ds with
      | None => IntInvalid
      | Some (v, n, rest) =>
          if (max_str_digits <? n)%nat then IntTooLong n
          else
            match n, lstrip rest with
            | S _, EmptyString => IntValue (if neg then - v else v)
            | _, _ => IntInvalid
            end
      end
  end.

(** [Some n] for the value of [int(s)], [None] where it raises
    [ValueError]. *)
Definition py_int (s : string) : option Z :=
  match parse_int s with
  | IntValue n => Some n
  | _ => None
  end.

(** A Python [float]: a binary64 number. *)
Definition pyfloat : Type := spec_float.

Definition prec : Z := 53.
Definition emax : Z := 1024.

(** [float(n)] for an integer: [n] rounded to the nearest binary64. *)
Definition of_Z (n : Z) : pyfloat := binary_normalize prec emax n 0 false.

(** The binary64 nearest to [m * 10 ^ e] for [m > 0] ([nd] is the number
    of decimal digits [m] was written with), ties to even, infinite
    beyond the largest finite number. *)
Definition decimal (neg : bool) (m : positive) (nd : nat) (e : Z) : pyfloat :=
  if 310 <? e then S754_infinity neg
  else if Z.of_nat nd + e <? -330 then S754_zero neg
  else if 0 <=? e then
    binary_normalize prec emax ((if neg then Z.neg m else Z.pos m) * 10 ^ e) 0 neg
  else
    SFdiv prec emax (S754_finite neg m 0) (S754_finite false (Z.to_pos (10 ^ (- e))) 0).

(** Leading digits of [s]: their value on top of [acc], how many there
    were on top of [n], and the rest of the string. *)
Fixpoint take_digits (acc : Z) (n : nat) (s : string) : Z * nat * string :=
  match s with
  | String c s' =>
      if is_digit c then take_digits (acc * 10 + digit_val c) (S n) s' else (acc, n, s)
  | EmptyString => (acc, n, s)
  end.

(** The optional exponent part, which must reach the end of the string. *)
Definition exponent (s : string) : option Z :=
  match s with
  | EmptyString => Some 0
  | String c s' =>
      if Ascii.eqb c "e" || Ascii.eqb c "E" then
        let '(neg, ds) := take_sign s' in
        match take_digits 0 0 ds with
        | (e, S _, EmptyString) => Some (if neg then - e else e)
        | _ => None
        end
      else None
  end.

(** Underscores of a float literal: each one between two digits. *)
Fixpoint underscores_ok (prev : bool) (s : string) : bool :=
  match s with
  | EmptyString => true
  | String c s' =>
      if Ascii.eqb c "_" then
        prev && match s' with String d _ => is_digit d | EmptyString => false end
             && underscores_ok false s'
      else underscores_ok (is_digit c) s'
  end.

Fixpoint drop_underscores (s : string) : string :=
  match s with
  | EmptyString => EmptyString
  | String c s' =>
      if Ascii.eqb c "_" then drop_underscores s' else String c (drop_underscores s')
  end.

(** [float(s)] for a [str]: [None] where the interpreter raises
    [ValueError]. *)
Definition py_float (s : string) : option pyfloat :=
  let t := strip (to_ascii s) in
  if negb (underscores_ok false t) then None else
  let '(neg, body) := take_sign (drop_underscores t) in
  let word := lower body in
  if String.eqb word "inf" || String.eqb word "infinity" then Some (S754_infinity neg)
  else if String.eqb word "nan" then Some S754_nan
  else
    let '(ip, ni, r1) := take_digits 0 0 body in
    let '(mant, nf, r2) :=
      match r1 with
      | String "." r => take_digits ip 0 r
      | _ => (ip, O, r1)
      end in
    match (ni + nf)%nat with
    | O => None
    | S _ =>
        match exponent r2 with
        | Some e =>
            Some match mant with
                 | Z.pos m => decimal neg m (ni + nf) (e - Z.of_nat nf)
                 | _ => S754_zero neg
                 end
        | None => None
        end
    end.

(** The code points above ASCII that [repr] writes as an escape, as
    ranges [(first, last)]: those that [str.isprintable] rejects (Unicode
    14.0.0). *)
Definition unprintable_ranges : list (Z * Z) :=
  [(128, 160); (173, 173); (888, 889); (896, 899); (907, 907); (909, 909); (930, 930);
   (1328, 1328); (1367, 1368); (1419, 1420); (1424, 1424); (1480, 1487); (1515, 1518);
   (1525, 1541); (1564, 1564); (1757, 1757); (1806, 1807); (1867, 1868); (1970, 1983);
   (2043, 2044); (2094, 2095); (2111, 2111); (2140, 2141); (2143, 2143); (2155, 2159);
   (2191, 2199); (2274, 2274); (2436, 2436); (2445, 2446); (2449, 2450); (2473, 2473);
   (2481, 2481); (2483, 2485); (2490, 2491); (2501, 2502); (2505, 2506); (2511, 2518);
   (2520, 2523); (2526, 2526); (2532, 2533); (2559, 2560); (2564, 2564); (2571, 2574);
   (2577, 2578); (2601, 2601); (2609, 2609); (2612, 2612); (2615, 2615); (2618, 2619);
   (2621, 2621); (2627, 2630); (2633, 2634); (2638, 2640); (2642, 2648); (2653, 2653);
   (2655, 2661); (2679, 2688); (2692, 2692); (2702, 2702); (2706, 2706); (2729, 2729);
   (2737, 2737); (2740, 2740); (2746, 2747); (2758, 2758); (2762, 2762); (2766, 2767);
   (2769, 2783); (2788, 2789); (2802, 2808); (2816, 2816); (2820, 2820); (2829, 2830);
   (2833, 2834); (2857, 2857); (2865, 2865); (2868, 2868); (2874, 2875); (2885, 2886);
   (2889, 2890); (2894, 2900); (2904, 2907); (2910, 2910); (2916, 2917); (2936, 2945);
   (2948, 2948); (2955, 2957); (2961, 2961); (2966, 2968); (2971, 2971); (2973, 2973);
   (2976, 2978); (2981, 2983); (2987, 2989); (3002, 3005); (3011, 3013); (3017, 3017);
   (3022, 3023); (3025, 3030); (3032, 3045); (3067, 3071); (3085, 3085); (3089, 3089);
   (3113, 3113); (3130, 3131); (3141, 3141); (3145, 3145); (3150, 3156); (3159, 3159);
   (3163, 3164); (3166, 3167); (3172, 3173); (3184, 3190); (3213, 3213); (3217, 3217);
   (3241, 3241); (3252, 3252); (3258, 3259); (3269, 3269); (3273, 3273); (3278, 3284);
   (3287, 3292); (3295, 3295); (3300, 3301); (3312, 3312); (3315, 3327); (3341, 3341);
   (3345, 3345); (3397, 3397); (3401, 3401); (3408, 3411); (3428, 3429); (3456, 3456);
   (3460, 3460); (3479, 3481); (3506, 3506); (3516, 3516); (3518, 3519); (3527, 3529);
   (3531, 3534); (3541, 3541); (3543, 3543); (3552, 3557); (3568, 3569); (3573, 3584);
   (3643, 3646); (3676, 3712); (3715, 3715); (3717, 3717); (3723, 3723); (3748, 3748);
   (3750, 3750); (3774, 3775); (3781, 3781); (3783, 3783); (3790, 3791); (3802, 3803);
   (3808, 3839); (3912, 3912); (3949, 3952); (3992, 3992); (4029, 4029); (4045, 4045);
   (4059, 4095); (4294, 4294); (4296, 4300); (4302, 4303); (4681, 4681); (4686, 4687);
   (4695, 4695); (4697, 4697); (4702, 4703); (4745, 4745); (4750, 4751); (4785, 4785);
   (4790, 4791); (4799, 4799); (4801, 4801); (4806, 4807); (4823, 4823); (4881, 4881);
   (4886, 4887); (4955, 4956); (4989, 4991); (5018, 5023); (5110, 5111); (5118, 5119);
   (5760, 5760); (5789, 5791); (5881, 5887); (5910, 5918); (5943, 5951); (5972, 5983);
   (5997, 5997); (6001, 6001); (6004, 6015); (6110, 6111); (6122, 6127); (6138, 6143);
   (6158, 6158); (6170, 6175); (6265, 6271); (6315, 6319); (6390, 6399); (6431, 6431);
   (6444, 6447); (6460, 6463); (6465, 6467); (6510, 6511); (6517, 6527); (6572, 6575);
   (6602, 6607); (6619, 6621); (6684, 6685); (6751, 6751); (6781, 6782); (6794, 6799);
   (6810, 6815); (6830, 6831); (6863, 6911); (6989, 6991); (7039, 7039); (7156, 7163);
   (7224, 7226); (7242, 7244); (7305, 7311); (7355, 7356); (7368, 7375); (7419, 7423);
   (7958, 7959); (7966, 7967); (8006, 8007); (8014, 8015); (8024, 8024); (8026, 8026);
   (8028, 8028); (8030, 8030); (8062, 8063); (8117, 8117); (8133, 8133); (8148, 8149);
   (8156, 8156); (8176, 8177); (8181, 8181); (8191, 8207); (8232, 8239); (8287, 8303);
   (8306, 8307); (8335, 8335); (8349, 8351); (8385, 8399); (8433, 8447); (8588, 8591);
   (9255, 9279); (9291, 9311); (11124, 11125); (11158, 11158); (11508, 11512);
   (11558, 11558); (11560, 11564); (11566, 11567); (11624, 11630); (11633, 11646);
   (11671, 11679); (11687, 11687); (11695, 11695); (11703, 11703); (11711, 11711);
   (11719, 11719); (11727, 11727); (11735, 11735); (11743, 11743); (11870, 11903);
   (11930, 11930); (12020, 12031); (12246, 12271); (12284, 12288); (12352, 12352);
   (12439, 12440); (12544, 12548); (12592, 12592); (12687, 12687); (12772, 12783);
   (12831, 12831); (42125, 42127); (42183, 42191); (42540, 42559); (42744, 42751);
   (42955, 42959); (42962, 42962); (42964, 42964); (42970, 42993); (43053, 43055);
   (43066, 43071); (43128, 43135); (43206, 43213); (43226, 43231); (43348, 43358);
   (43389, 43391); (43470, 43470); (43482, 43485); (43519, 43519); (43575, 43583);
   (43598, 43599); (43610, 43611); (43715, 43738); (43767, 43776); (43783, 43784);
   (43791, 43792); (43799, 43807); (43815, 43815); (43823, 43823); (43884, 43887);
   (44014, 44015); (44026, 44031); (55204, 55215); (55239, 55242); (55292, 63743);
   (64110, 64111); (64218, 64255); (64263, 64274); (64280, 64284); (64311, 64311);
   (64317, 64317); (64319, 64319); (64322, 64322); (64325, 64325); (64451, 64466);
   (64912, 64913); (64968, 64974); (64976, 65007); (65050, 65055); (65107, 65107);
   (65127, 65127); (65132, 65135); (65141, 65141); (65277, 65280); (65471, 65473);
   (65480, 65481); (65488, 65489); (65496, 65497); (65501, 65503); (65511, 65511);
   (65519, 65531); (65534, 65535); (65548, 65548); (65575, 65575); (65595, 65595);
   (65598, 65598); (65614, 65615); (65630, 65663); (65787, 65791); (65795, 65798);
   (65844, 65846); (65935, 65935); (65949, 65951); (65953, 65999); (66046, 66175);
   (66205, 66207); (66257, 66271); (66300, 66303); (66340, 66348); (66379, 66383);
   (66427, 66431); (66462, 66462); (66500, 66503); (66518, 66559); (66718, 66719);
   (66730, 66735); (66772, 66775); (66812, 66815); (66856, 66863); (66916, 66926);
   (66939, 66939); (66955, 66955); (66963, 66963); (66966, 66966); (66978, 66978);
   (66994, 66994); (67002, 67002); (67005, 67071); (67383, 67391); (67414, 67423);
   (67432, 67455); (67462, 67462); (67505, 67505); (67515, 67583); (67590, 67591);
   (67593, 67593); (67638, 67638); (67641, 67643); (67645, 67646); (67670, 67670);
   (67743, 67750); (67760, 67807); (67827, 67827); (67830, 67834); (67868, 67870);
   (67898, 67902); (67904, 67967); (68024, 68027); (68048, 68049); (68100, 68100);
   (68103, 68107); (68116, 68116); (68120, 68120); (68150, 68151); (68155, 68158);
   (68169, 68175); (68185, 68191); (68256, 68287); (68327, 68330); (68343, 68351);
   (68406, 68408); (68438, 68439); (68467, 68471); (68498, 68504); (68509, 68520);
   (68528, 68607); (68681, 68735); (68787, 68799); (68851, 68857); (68904, 68911);
   (68922, 69215); (69247, 69247); (69290, 69290); (69294, 69295); (69298, 69375);
   (69416, 69423); (69466, 69487); (69514, 69551); (69580, 69599); (69623, 69631);
   (69710, 69713); (69750, 69758); (69821, 69821); (69827, 69839); (69865, 69871);
   (69882, 69887); (69941, 69941); (69960, 69967); (70007, 70015); (70112, 70112);
   (70133, 70143); (70162, 70162); (70207, 70271); (70279, 70279); (70281, 70281);
   (70286, 70286); (70302, 70302); (70314, 70319); (70379, 70383); (70394, 70399);
   (70404, 70404); (70413, 70414); (70417, 70418); (70441, 70441); (70449, 70449);
   (70452, 70452); (70458, 70458); (70469, 70470); (70473, 70474); (70478, 70479);
   (70481, 70486); (70488, 70492); (70500, 70501); (70509, 70511); (70517, 70655);
   (70748, 70748); (70754, 70783); (70856, 70863); (70874, 71039); (71094, 71095);
   (71134, 71167); (71237, 71247); (71258, 71263); (71277, 71295); (71354, 71359);
   (71370, 71423); (71451, 71452); (71468, 71471); (71495, 71679); (71740, 71839);
   (71923, 71934); (71943, 71944); (71946, 71947); (71956, 71956); (71959, 71959);
   (71990, 71990); (71993, 71994); (72007, 72015); (72026, 72095); (72104, 72105);
   (72152, 72153); (72165, 72191); (72264, 72271); (72355, 72367); (72441, 72703);
   (72713, 72713); (72759, 72759); (72774, 72783); (72813, 72815); (72848, 72849);
   (72872, 72872); (72887, 72959); (72967, 72967); (72970, 72970); (73015, 73017);
   (73019, 73019); (73022, 73022); (73032, 73039); (73050, 73055); (73062, 73062);
   (73065, 73065); (73103, 73103); (73106, 73106); (73113, 73119); (73130, 73439);
   (73465, 73647); (73649, 73663); (73714, 73726); (74650, 74751); (74863, 74863);
   (74869, 74879); (75076, 77711); (77811, 77823); (78895, 82943); (83527, 92159);
   (92729, 92735); (92767, 92767); (92778, 92781); (92863, 92863); (92874, 92879);
   (92910, 92911); (92918, 92927); (92998, 93007); (93018, 93018); (93026, 93026);
   (93048, 93052); (93072, 93759); (93851, 93951); (94027, 94030); (94088, 94094);
   (94112, 94175); (94181, 94191); (94194, 94207); (100344, 100351); (101590, 101631);
   (101641, 110575); (110580, 110580); (110588, 110588); (110591, 110591);
   (110883, 110927); (110931, 110947); (110952, 110959); (111356, 113663);
   (113771, 113775); (113789, 113791); (113801, 113807); (113818, 113819);
   (113824, 118527); (118574, 118575); (118599, 118607); (118724, 118783);
   (119030, 119039); (119079, 119080); (119155, 119162); (119275, 119295);
   (119366, 119519); (119540, 119551); (119639, 119647); (119673, 119807);
   (119893, 119893); (119965, 119965); (119968, 119969); (119971, 119972);
   (119975, 119976); (119981, 119981); (119994, 119994); (119996, 119996);
   (120004, 120004); (120070, 120070); (120075, 120076); (120085, 120085);
   (120093, 120093); (120122, 120122); (120127, 120127); (120133, 120133);
   (120135, 120137); (120145, 120145); (120486, 120487); (120780, 120781);
   (121484, 121498); (121504, 121504); (121520, 122623); (122655, 122879);
   (122887, 122887); (122905, 122906); (122914, 122914); (122917, 122917);
   (122923, 123135); (123181, 123183); (123198, 123199); (123210, 123213);
   (123216, 123535); (123567, 123583); (123642, 123646); (123648, 124895);
   (124903, 124903); (124908, 124908); (124911, 124911); (124927, 124927);
   (125125, 125126); (125143, 125183); (125260, 125263); (125274, 125277);
   (125280, 126064); (126133, 126208); (126270, 126463); (126468, 126468);
   (126496, 126496); (126499, 126499); (126501, 126502); (126504, 126504);
   (126515, 126515); (126520, 126520); (126522, 126522); (126524, 126529);
   (126531, 126534); (126536, 126536); (126538, 126538); (126540, 126540);
   (126544, 126544); (126547, 126547); (126549, 126550); (126552, 126552);
   (126554, 126554); (126556, 126556); (126558, 126558); (126560, 126560);
   (126563, 126563); (126565, 126566); (126571, 126571); (126579, 126579);
   (126584, 126584); (126589, 126589); (126591, 126591); (126602, 126602);
   (126620, 126624); (126628, 126628); (126634, 126634); (126652, 126703);
   (126706, 126975); (127020, 127023); (127124, 127135); (127151, 127152);
   (127168, 127168); (127184, 127184); (127222, 127231); (127406, 127461);
   (127491, 127503); (127548, 127551); (127561, 127567); (127570, 127583);
   (127590, 127743); (128728, 128732); (128749, 128751); (128765, 128767);
   (128884, 128895); (128985, 128991); (129004, 129007); (129009, 129023);
   (129036, 129039); (129096, 129103); (129114, 129119); (129160, 129167);
   (129198, 129199); (129202, 129279); (129620, 129631); (129646, 129647);
   (129653, 129655); (129661, 129663); (129671, 129679); (129709, 129711);
   (129723, 129727); (129734, 129743); (129754, 129759); (129768, 129775);
   (129783, 129791); (129939, 129939); (129995, 130031); (130042, 131071);
   (173792, 173823); (177977, 177983); (178206, 178207); (183970, 183983);
   (191457, 194559); (195102, 196607); (201547, 917759); (918000, 1114111)].

Definition is_printable (c : Z) : bool :=
  negb (existsb (fun r : Z * Z => (r.1 <=? c) && (c <=? r.2)) unprintable_ranges).

(** The code point of the character at the front of [s], from its UTF-8
    bytes, and the number of these bytes. *)
Definition decode (s : string) : Z * nat :=
  match s with
  | EmptyString => (0, O)
  | String b0 r0 =>
      let n0 := code b0 in
      if n0 <? 192 then (n0, 1%nat)
      else if n0 <? 224 then
        match r0 with
        | String b1 _ => ((n0 - 192) * 64 + (code b1 - 128), 2%nat)
        | _ => (n0, 1%nat)
        end
      else if n0 <? 240 then
        match r0 with
        | String b1 (String b2 _) =>
            (((n0 - 224) * 64 + (code b1 - 128)) * 64 + (code b2 - 128), 3%nat)
        | _ => (n0, 1%nat)
        end
      else
        match r0 with
        | String b1 (String b2 (String b3 _)) =>
            ((((n0 - 240) * 64 + (code b1 - 128)) * 64 + (code b2 - 128)) * 64
             + (code b3 - 128), 4%nat)
        | _ => (n0, 1%nat)
        end
  end.

Definition hex_digit (n : Z) : ascii :=
  if n <? 10 then byte (48 + n) else byte (87 + n).

(** The last [digits] hexadecimal digits of [n]. *)
Fixpoint hex (digits : nat) (n : Z) : string :=
  match digits with
  | O => EmptyString
  | S k => hex k (n / 16) +:+ String (hex_digit (n mod 16)) EmptyString
  end.

(** The escape of a code point: [\xhh], [\uhhhh] or [\Uhhhhhhhh]. *)
Definition escape (c : Z) : string :=
  String backslash
    (if c <? 256 then String "x" (hex 2 c)
     else if c <? 65536 then String "u" (hex 4 c)
     else String "U" (hex 8 c)).

(** The body of [repr(s)] between its quotes, [q] being the quote used:
    the quote and the backslash get a backslash, TAB, LF and CR their
    letter, and every other character that is not printable its escape.
    [skip] counts the bytes of an escaped character that are still to be
    dropped. *)
Fixpoint repr_body (q : ascii) (skip : nat) (s : string) : string :=
  match s with
  | EmptyString => EmptyString
  | String c s' =>
      match skip with
      | S k => repr_body q k s'
      | O =>
          let n := code c in
          if Ascii.eqb c backslash || Ascii.eqb c q then
            String backslash (String c (repr_body q O s'))
          else if n =? 10 then String backslash (String "n" (repr_body q O s'))
          else if n =? 13 then String backslash (String "r" (repr_body q O s'))
          else if n =? 9 then String backslash (String "t" (repr_body q O s'))
          else if (n <? 32) || (n =? 127) then escape n +:+ repr_body q O s'
          else if n <? 192 then String c (repr_body q O s')
          else if is_printable (decode s).1 then String c (repr_body q O s')
          else escape (decode s).1 +:+ repr_body q ((decode s).2 - 1) s'
      end
  end.

(** [repr(s)]: single quotes, unless [s] holds a single quote and no
    double quote. *)
Definition repr (s : string) : string :=
  let q :=
    if contains (String squote EmptyString) s && negb (contains (String dquote EmptyString) s)
    then dquote else squote in
  String q (repr_body q O s +:+ String q EmptyString).

(** The first [n] characters of [s] (a byte from 128 to 191 continues
    the character before it). *)
Fixpoint take_chars (n : nat) (s : string) : string :=
  match s with
  | EmptyString => EmptyString
  | String b s' =>
      if (128 <=? code b) && (code b <? 192) then String b (take_chars n s')
      else
        match n with
        | O => EmptyString
        | S k => String b (take_chars k s')
        end
  end.

(** The text of the [ValueError] of [int(s)]; the literal is shown by the
    first 200 characters of its [repr]. *)
Definition int_error_text (s : string) : string :=
  match parse_int s with
  | IntTooLong digits =>
      "Exceeds the limit (4300 digits) for integer string conversion: value has "
      +:+ pretty digits +:+ " digits; use sys.set_int_max_str_digits() to increase the limit"
  | _ => "invalid literal for int() with base 10: " +:+ take_chars 200 (repr s)
  end.

End PyNum.


(** ** Exceptions *)

(** An exception raised inside a collaborator ([urllib], the QGIS and Qt
    bindings), by the [__name__] of its class and its text.
    [LibValueError] is [ValueError] or one of its subclasses, [LibError]
    any other subclass of [Exception] ([URLError], [HTTPError], ...). *)
Inductive lib_exn : Type :=
  | LibValueError (cls msg : string)
  | LibError (cls msg : string).

Inductive exn : Type :=
  | ParameterError (msg : string)
  | KeyError (key : string)
  | TypeError (msg : string)
  | AttributeError (msg : string)
  | ValueError (msg : string)
  | Raised (e : lib_exn).

(** [type(e).__name__] *)
Definition type_name (e : exn) : string :=
  match e with
  | ParameterError _ => "ParameterError"
  | KeyError _ => "KeyError"
  | TypeError _ => "TypeError"
  | AttributeError _ => "AttributeError"
  | ValueError _ => "ValueError"
  | Raised (LibValueError cls _) => cls
  | Raised (LibError cls _) => cls
  end.

(** [isinstance(e, C)] for the classes the module names in its handlers. *)
Definition is_ParameterError (e : exn) : bool :=
  match e with ParameterError _ => true | _ => false end.
Definition is_KeyError (e : exn) : bool :=
  match e with KeyError _ => true | _ => false end.
Definition is_TypeError (e : exn) : bool :=
  match e with TypeError _ => true | _ => false end.
Definition is_AttributeError (e : exn) : bool :=
  match e with AttributeError _ => true | _ => false end.
Definition is_ValueError (e : exn) : bool :=
  match e with ValueError _ | Raised (LibValueError _ _) => true | _ => false end.

(** [str(e)] *)
Definition exn_str (e : exn) : string :=
  match e with
  | ParameterError msg | TypeError msg | AttributeError msg | ValueError msg => msg
  | KeyError key => PyNum.repr key
  | Raised (LibValueError _ msg) | Raised (LibError _ msg) => msg
  end.

(** The outcome of an expression: the exception it raises or its value. *)
Definition result (A : Type) : Type := exn + A.

(** [try: body / except <classes>: handler]: [catches] picks the handler
    of the first matching clause, if any. *)
Definition try_except {A} (body : result A) (catches : exn -> option (result A)) : result A :=
  match body with
  | inr a => inr a
  | inl e => match catches e with Some r => r | None => inl e end
  end.

Definition and_then {A B} (r : result A) (k : A -> result B) : result B :=
  match r with inl e => inl e | inr a => k a end.

(** ** The request parameters and their builtins *)

(** [request.parameterMap()]: a [dict] from [str] to [str]. *)
Abbreviation params_t := (gmap string string).

(** [params[key]] *)
Definition getitem (params : params_t) (key : string) : result string :=
  match params !! key with
  | Some v => inr v
  | None => inl (KeyError key)
  end.

(** The exception of [int(v)] for a string that is no integer. *)
Definition int_error (v : string) : exn := ValueError (PyNum.int_error_text v).

(** [int(v)] for a [str] argument (it raises no [TypeError] there). *)
Definition int_ (v : string) : result Z :=
  match PyNum.py_int v with
  | Some n => inr n
  | None => inl (int_error v)
  end.

(** [float(v)] for a [str] argument. *)
Definition float_ (v : string) : result PyNum.pyfloat :=
  match PyNum.py_float v with
  | Some x => inr x
  | None => inl (ValueError ("could not convert string to float: " +:+ PyNum.repr v))
  end.

(** [params.get('BBOX').split(',')]: [None] has no [split]. *)
Definition get_split (params : params_t) (key : string) : result (list string) :=
  match params !! key with
  | Some v => inr (PyStr.split "," v)
  | None => inl (AttributeError "'NoneType' object has no attribute 'split'")
  end.

(** [a, b, c, d = l] *)
Definition unpack4 (l : list string) : result (string * string * string * string) :=
  match l with
  | [a; b; c; d] => inr (a, b, c, d)
  | _ =>
      if (length l <? 4)%nat
      then inl (ValueError ("not enough values to unpack (expected 4, got " +:+ pretty (length l) +:+ ")"))
      else inl (ValueError "too many values to unpack (expected 4)")
  end.

(** ** Collaborators *)

(** A [QgsRectangle], by the four arguments of its constructor call. *)
Record QgsRectangle : Type := mkQgsRectangle {
  rect_xmin : PyNum.pyfloat;
  rect_ymin : PyNum.pyfloat;
  rect_xmax : PyNum.pyfloat;
  rect_ymax : PyNum.pyfloat
}.

(** A [QgsVectorLayer], by the arguments of its constructor call and the
    style file read into it, if any. *)
Record QgsVectorLayer : Type := mkQgsVectorLayer {
  layer_source : string;
  layer_name : string;
  layer_provider : string;
  layer_style : option string
}.

(** [QgsVectorLayer(path, baseName, providerLib)] *)
Definition new_layer (path baseName providerLib : string) : QgsVectorLayer :=
  mkQgsVectorLayer path baseName providerLib None.

(** The [QgsMapSettings] handed to the renderer (the background is always
    [Qt.transparent]). *)
Record QgsMapSettings : Type := mkQgsMapSettings {
  outputSize : Z * Z;
  outputDpi : Z;
  extent : QgsRectangle;
  layers : list QgsVectorLayer
}.

(** What the filter cannot decide by itself: the file system
    ([os.path.exists]), the network ([urllib.request.urlretrieve], which
    returns the name of a temporary file or raises), the bindings'
    conversion of the arguments of lines 127 to 132 ([QSize] takes C
    integers, [setOutputDpi] a C double: [configure] is the exception
    raised for settings they refuse), the rendering engine (lines 133 to
    147: the job and its event loop, the resolution metadata
    [dpi * DPI_CONST] and the PNG encoding, which give the image data or
    raise) and [traceback.format_exc()] for the exception being
    handled. *)
Record World : Type := mkWorld {
  path_exists : string -> bool;
  urlretrieve : string -> lib_exn + string;
  configure : QgsMapSettings -> option lib_exn;
  run_job : QgsMapSettings -> lib_exn + string;
  format_exc : exn -> string
}.

(** Lines 127 to 147 for given settings: the image data, or the
    exception raised by the configuration or by the engine. *)
Definition render_png (w : World) (settings : QgsMapSettings) : lib_exn + string :=
  match configure w settings with
  | Some e => inl e
  | None => run_job w settings
  end.

(** The request handler of the server interface. *)
Record QgsRequestHandler : Type := mkRequest {
  parameterMap : gmap string string;
  responseHeaders : gmap string string;
  responseBody : string
}.

(** Calls that leave the filter, in the order they are made.  [EvResolve]
    marks an entry into [_resolve_url], [EvLoadStyle] the reading of a
    style file into a layer, [EvRender] the start of the rendering job. *)
Inductive Event : Type :=
  | EvResolve (url : string)
  | EvExists (path : string)
  | EvFetch (url : string)
  | EvLoadStyle (layer : QgsVectorLayer) (style : string)
  | EvRender (settings : QgsMapSettings).

(** What a request can change: the request handler, the message log of
    [QgsMessageLog] and the calls made so far. *)
Record State : Type := mkState {
  request : QgsRequestHandler;
  message_log : list string;
  calls : list Event
}.

(** ** Statements: state passing with exceptions

    A raised exception keeps the state reached so far. *)
Definition M (A : Type) : Type := State -> State * result A.

#[export] Instance M_ret : MRet M := fun A a st => (st, inr a).
#[export] Instance M_bind : MBind M := fun A B k c st =>
  match c st with
  | (st', inr a) => k a st'
  | (st', inl e) => (st', inl e)
  end.

Definition raise {A} (e : exn) : M A := fun st => (st, inl e).
Definition lift {A} (r : result A) : M A := fun st => (st, r).

Definition call (ev : Event) : M unit := fun st =>
  (mkState (request st) (message_log st) (calls st ++ [ev]), inr tt).

(** [QgsMessageLog.logMessage(msg)] *)
Definition logMessage (msg : string) : M unit := fun st =>
  (mkState (request st) (message_log st ++ [msg]) (calls st), inr tt).

Definition on_request (f : QgsRequestHandler -> QgsRequestHandler) : M unit := fun st =>
  (mkState (f (request st)) (message_log st) (calls st), inr tt).

(** [request.clear()]: headers and body of the response are dropped. *)
Definition clear : M unit :=
  on_request (fun r => mkRequest (parameterMap r) ∅ "").

(** [request.setResponseHeader(name, value)] *)
Definition setResponseHeader (name value : string) : M unit :=
  on_request (fun r => mkRequest (parameterMap r) (<[name := value]> (responseHeaders r)) (responseBody r)).

(** [request.appendBody(data)] *)
Definition appendBody (data : string) : M unit :=
  on_request (fun r => mkRequest (parameterMap r) (responseHeaders r) (responseBody r +:+ data)).

(** [try: body / except Exception as e: handler(e)] around statements. *)
Definition try_catch {A} (body : M A) (handler : exn -> M A) : M A := fun st =>
  match body st with
  | (st', inr a) => (st', inr a)
  | (st', inl e) => handler e st'
  end.

#[export] Instance result_ret : MRet result := fun A a => inr a.
#[export] Instance result_bind : MBind result := fun A B k r => and_then r k.

(** ** The filter *)

(** [RenderGeojsonFilter]: [prefix_path] is what [__init__] read from the
    environment variable [QGIS_RENDERGEOJSON_PREFIX] ([None] when unset). *)
Record RenderGeojsonFilter : Type := mkFilter {
  prefix_path : option string
}.

(** [RenderGeojsonFilter.__init__], [environ] being [os.environ]: the
    prefix is read once, when the filter is built.  (Handing [serverIface]
    to the base class leaves the field alone.) *)
Definition __init__ (environ : gmap string string) : RenderGeojsonFilter :=
  mkFilter (environ !! "QGIS_RENDERGEOJSON_PREFIX").

(** Truth value of an optional [str]: [None] and the empty string are false. *)
Definition truthy (o : option string) : bool :=
  match o with
  | Some s => negb (String.eqb s "")
  | None => false
  end.

Definition not_found_msg (url : string) : string :=
  "The file `" +:+ url +:+ "` could not be found locally and not be retrieved as download.".

(** Lines 58 to 61: the download and its [except ValueError] clause. *)
Definition download (w : World) (url : string) : M string :=
  call (EvFetch url);;
  match urlretrieve w url with
  | inr local_path => mret local_path
  | inl e =>
      if is_ValueError (Raised e)
      then raise (ParameterError (not_found_msg url))
      else raise (Raised e)
  end.

(** [RenderGeojsonFilter._resolve_url] *)
Definition _resolve_url (w : World) (self : RenderGeojsonFilter) (url : string) : M string :=
  call (EvResolve url);;
  let local_path : option string :=
    if truthy (prefix_path self)
    then Some (os_path_join (default "" (prefix_path self)) url)
    else None in
  if negb (truthy local_path) then download w url
  else
    let p := default "" local_path in
    call (EvExists p);;
    if negb (path_exists w p) then download w url else mret p.

(** The parameters once read, lines 77 to 107. *)
Record RenderRequest : Type := mkRenderRequest {
  geojson : string;
  style : string;
  width : Z;
  height : Z;
  dpi : Z;
  bbox : QgsRectangle
}.

Definition catch_as {A} (classes : exn -> bool) (r : result A) (e : exn) : option (result A) :=
  if classes e then Some r else None.

Definition GEOJSON_msg : string := "Parameter GEOJSON must be set.".
Definition STYLE_msg : string := "Parameter STYLE must be set.".
Definition WIDTH_msg : string := "Parameter WIDTH must be integer.".
Definition HEIGHT_msg : string := "Parameter HEIGHT must be integer.".
Definition DPI_msg : string := "Parameter DPI must be integer.".
Definition BBOX_msg : string :=
  "Parameter BBOX must be specified in the form `min_x,min_y,max_x,max_y`.".

(** Lines 77 to 80 *)
Definition read_GEOJSON (params : params_t) : result string :=
  try_except (getitem params "GEOJSON")
    (catch_as is_KeyError (inl (ParameterError GEOJSON_msg))).

(** Lines 82 to 85 *)
Definition read_STYLE (params : params_t) : result string :=
  try_except (getitem params "STYLE")
    (catch_as is_KeyError (inl (ParameterError STYLE_msg))).

(** Lines 87 to 90 *)
Definition read_WIDTH (params : params_t) : result Z :=
  try_except (v ← getitem params "WIDTH"; int_ v)
    (catch_as (fun e => is_KeyError e || is_TypeError e) (inl (ParameterError WIDTH_msg))).

(** Lines 91 to 94 *)
Definition read_HEIGHT (params : params_t) : result Z :=
  try_except (v ← getitem params "HEIGHT"; int_ v)
    (catch_as (fun e => is_KeyError e || is_TypeError e) (inl (ParameterError HEIGHT_msg))).

(** Lines 96 to 101 *)
Definition read_DPI (params : params_t) : result Z :=
  try_except (v ← getitem params "DPI"; int_ v)
    (fun e =>
       if is_TypeError e then Some (inl (ParameterError DPI_msg))
       else if is_KeyError e then Some (inr 96)
       else None).

(** Lines 103 to 107 *)
Definition read_BBOX (params : params_t) : result QgsRectangle :=
  try_except
    (l ← get_split params "BBOX";
     '(minx, miny, maxx, maxy) ← unpack4 l;
     x0 ← float_ minx;
     y0 ← float_ miny;
     x1 ← float_ maxx;
     y1 ← float_ maxy;
     mret (mkQgsRectangle x0 y0 x1 y1))
    (catch_as (fun e => is_ValueError e || is_AttributeError e) (inl (ParameterError BBOX_msg))).

(** Lines 77 to 107 in sequence. *)
Definition validate (params : params_t) : result RenderRequest :=
  geojson ← read_GEOJSON params;
  style ← read_STYLE params;
  width ← read_WIDTH params;
  height ← read_HEIGHT params;
  dpi ← read_DPI params;
  bbox ← read_BBOX params;
  mret (mkRenderRequest geojson style width height dpi bbox).

(** Lines 112 to 117: the style files of the polygon, line and point
    layers. *)
Definition resolve_styles (w : World) (self : RenderGeojsonFilter) (style : string)
  : M (string * string * string) :=
  if PyStr.contains "$type" style then
    polygon_style ← _resolve_url w self (PyStr.replace "$type" "polygons" style);
    line_style ← _resolve_url w self (PyStr.replace "$type" "lines" style);
    point_style ← _resolve_url w self (PyStr.replace "$type" "points" style);
    mret (polygon_style, line_style, point_style)
  else
    s ← _resolve_url w self style;
    mret (s, s, s).

(** [RenderGeojsonFilter._load_style]: the style file is read into the
    layer. *)
Definition _load_style (layer : QgsVectorLayer) (style : string) : QgsVectorLayer :=
  mkQgsVectorLayer (layer_source layer) (layer_name layer) (layer_provider layer) (Some style).

(** Lines 119 to 132: the three layers with their styles, and the map
    settings asked for (whether the bindings accept the output size and
    the resolution is [configure] of the world). *)
Definition map_settings (rq : RenderRequest) (geojson_file_name : string)
    (styles : string * string * string) : QgsMapSettings :=
  let '(polygon_style, line_style, point_style) := styles in
  let polygon_layer :=
    _load_style (new_layer (geojson_file_name +:+ "|geometrytype=Polygon") "polygons" "ogr")
      polygon_style in
  let line_layer :=
    _load_style (new_layer (geojson_file_name +:+ "|geometrytype=Line") "lines" "ogr")
      line_style in
  let point_layer :=
    _load_style (new_layer (geojson_file_name +:+ "|geometrytype=Point") "points" "ogr")
      point_style in
  mkQgsMapSettings (width rq, height rq) (dpi rq) (bbox rq)
    [polygon_layer; line_layer; point_layer].

(** Lines 119 to 125: each layer is built and its style file is read
    into it. *)
Definition load_styles (geojson_file_name : string) (styles : string * string * string)
  : M unit :=
  let '(polygon_style, line_style, point_style) := styles in
  call (EvLoadStyle (new_layer (geojson_file_name +:+ "|geometrytype=Polygon") "polygons" "ogr")
          polygon_style);;
  call (EvLoadStyle (new_layer (geojson_file_name +:+ "|geometrytype=Line") "lines" "ogr")
          line_style);;
  call (EvLoadStyle (new_layer (geojson_file_name +:+ "|geometrytype=Point") "points" "ogr")
          point_style).

(** Lines 127 to 147: the settings are configured, which the bindings
    may refuse, and the rendering job is run. *)
Definition render (w : World) (settings : QgsMapSettings) : M string :=
  match configure w settings with
  | Some e => raise (Raised e)
  | None =>
      call (EvRender settings);;
      match run_job w settings with
      | inr image_data => mret image_data
      | inl e => raise (Raised e)
      end
  end.

(** [RenderGeojsonFilter.handle_requests] *)
Definition handle_requests (w : World) (self : RenderGeojsonFilter) : M unit :=
  fun st =>
  let params := parameterMap (request st) in
  (rq ← lift (validate params);
   geojson_file_name ← _resolve_url w self (geojson rq);
   styles ← resolve_styles w self (style rq);
   load_styles geojson_file_name styles;;
   image_data ← render w (map_settings rq geojson_file_name styles);
   setResponseHeader "Content-type" "image/png";;
   appendBody image_data) st.

(** Line 156: [SERVICE] names this service. *)
Definition claimed (r : QgsRequestHandler) : bool :=
  String.eqb (PyStr.upper (default "" (parameterMap r !! "SERVICE"))) "RENDERGEOJSON".

(** Lines 163 to 172: the [except Exception as e] clause. *)
Definition on_exception (w : World) (e : exn) : M unit :=
  logMessage ("RenderGeojson.responseComplete :: " +:+ type_name e);;
  setResponseHeader "Content-type" "text/plain";;
  if is_ParameterError e then appendBody (exn_str e)
  else
    let err_trace := format_exc w e in
    logMessage ("RenderGeojson.responseComplete ::  " +:+ err_trace);;
    appendBody "Unhandled error";;
    appendBody err_trace.

(** [RenderGeojsonFilter.responseComplete] *)
Definition responseComplete (w : World) (self : RenderGeojsonFilter) : M unit :=
  fun st =>
  if negb (claimed (request st)) then (st, inr tt)
  else
    (clear;;
     try_catch (handle_requests w self) (on_exception w)) st.

(** * Vocabulary of the properties

    The runs of the filter as functions of the world, the statements of
    the specification, and the worlds and requests the examples use. *)

(** ** Running statements *)

Definition with_calls (st : State) (evs : list Event) : State :=
  mkState (request st) (message_log st) (calls st ++ evs).

(** ** The resolver, as a function of the world *)

(** What the download gives: the temporary file, or the exception that
    leaves [_resolve_url]. *)
Definition fetch_result (w : World) (url : string) : result string :=
  match urlretrieve w url with
  | inr f => inr f
  | inl e =>
      inl (if is_ValueError (Raised e) then ParameterError (not_found_msg url) else Raised e)
  end.

(** The local path looked up first, when a prefix is configured. *)
Definition local_candidate (self : RenderGeojsonFilter) (url : string) : option string :=
  match prefix_path self with
  | Some p => if String.eqb p "" then None else Some (os_path_join p url)
  | None => None
  end.

Definition found_locally (w : World) (self : RenderGeojsonFilter) (url : string) : bool :=
  match local_candidate self url with
  | Some p => path_exists w p
  | None => false
  end.

Definition resolve_result (w : World) (self : RenderGeojsonFilter) (url : string) : result string :=
  match local_candidate self url with
  | Some p => if path_exists w p then inr p else fetch_result w url
  | None => fetch_result w url
  end.

Definition resolve_events (w : World) (self : RenderGeojsonFilter) (url : string) : list Event :=
  match local_candidate self url with
  | Some p => EvResolve url :: EvExists p :: (if path_exists w p then [] else [EvFetch url])
  | None => [EvResolve url; EvFetch url]
  end.

(** ** The pipeline of [handle_requests], as a function of the world *)

(** The references handed to [_resolve_url] for the styles, in order. *)
Definition style_refs (style : string) : list string :=
  if PyStr.contains "$type" style
  then [PyStr.replace "$type" "polygons" style;
        PyStr.replace "$type" "lines" style;
        PyStr.replace "$type" "points" style]
  else [style].

Definition styles_result (w : World) (self : RenderGeojsonFilter) (style : string)
  : result (string * string * string) :=
  if PyStr.contains "$type" style then
    p ← resolve_result w self (PyStr.replace "$type" "polygons" style);
    l ← resolve_result w self (PyStr.replace "$type" "lines" style);
    pt ← resolve_result w self (PyStr.replace "$type" "points" style);
    mret (p, l, pt)
  else
    s ← resolve_result w self style;
    mret (s, s, s).

(** Calls made by resolving [refs] one after the other, up to the first
    one that fails. *)
Fixpoint resolve_seq_events (w : World) (self : RenderGeojsonFilter) (refs : list string)
  : list Event :=
  match refs with
  | [] => []
  | r :: rest =>
      resolve_events w self r ++
      match resolve_result w self r with
      | inr _ => resolve_seq_events w self rest
      | inl _ => []
      end
  end.

(** The image, or the exception raised after validation. *)
Definition pipeline_result (w : World) (self : RenderGeojsonFilter) (rq : RenderRequest)
  : result string :=
  g ← resolve_result w self (geojson rq);
  styles ← styles_result w self (style rq);
  match render_png w (map_settings rq g styles) with
  | inr image_data => inr image_data
  | inl e => inl (Raised e)
  end.

(** The calls of [load_styles]. *)
Definition load_events (g : string) (styles : string * string * string) : list Event :=
  [EvLoadStyle (new_layer (g +:+ "|geometrytype=Polygon") "polygons" "ogr") styles.1.1;
   EvLoadStyle (new_layer (g +:+ "|geometrytype=Line") "lines" "ogr") styles.1.2;
   EvLoadStyle (new_layer (g +:+ "|geometrytype=Point") "points" "ogr") styles.2].

(** The calls after the resolutions: the styles are read into the
    layers, and the engine is invoked when the settings are accepted. *)
Definition render_events (w : World) (rq : RenderRequest) (g : string)
    (styles : string * string * string) : list Event :=
  load_events g styles ++
  match configure w (map_settings rq g styles) with
  | None => [EvRender (map_settings rq g styles)]
  | Some _ => []
  end.

Definition pipeline_events (w : World) (self : RenderGeojsonFilter) (rq : RenderRequest)
  : list Event :=
  resolve_events w self (geojson rq) ++
  match resolve_result w self (geojson rq) with
  | inl _ => []
  | inr g =>
      resolve_seq_events w self (style_refs (style rq)) ++
      match styles_result w self (style rq) with
      | inl _ => []
      | inr styles => render_events w rq g styles
      end
  end.

(** The response written by one header and one body. *)
Definition respond (content_type body : string) (st : State) : State :=
  mkState
    (mkRequest (parameterMap (request st))
       (<["Content-type" := content_type]> (responseHeaders (request st)))
       (responseBody (request st) +:+ body))
    (message_log st) (calls st).

(** ** The dispatcher, as a function of the world *)

Definition with_log (st : State) (msgs : list string) : State :=
  mkState (request st) (message_log st ++ msgs) (calls st).

(** The state after [request.clear()]. *)
Definition cleared (st : State) : State :=
  mkState (mkRequest (parameterMap (request st)) ∅ "") (message_log st) (calls st).

Definition marker : string := "Unhandled error".

(** The body written for an exception: the bare message of a
    [ParameterError], the marker and the traceback otherwise. *)
Definition error_body (w : World) (e : exn) : string :=
  if is_ParameterError e then exn_str e else marker +:+ format_exc w e.

(** The messages logged for an exception. *)
Definition error_log (w : World) (e : exn) : list string :=
  ("RenderGeojson.responseComplete :: " +:+ type_name e) ::
  (if is_ParameterError e then []
   else ["RenderGeojson.responseComplete ::  " +:+ format_exc w e]).

(** What [handle_requests] raises or renders for a parameter map, and
    the calls it makes on the way. *)
Definition outcome (w : World) (self : RenderGeojsonFilter) (params : params_t)
  : result string * list Event :=
  match validate params with
  | inl e => (inl e, [])
  | inr rq => (pipeline_result w self rq, pipeline_events w self rq)
  end.

(** ** Requests of the examples *)

Definition request_with (l : list (string * string)) : State :=
  mkState (mkRequest (list_to_map l) ∅ "") [] [].

Definition width_abc : State :=
  request_with
    [("SERVICE", "RENDERGEOJSON"); ("GEOJSON", "map.geojson"); ("STYLE", "style.qml");
     ("WIDTH", "abc"); ("HEIGHT", "100"); ("BBOX", "0,0,10,10")].

Definition height_abc : State :=
  request_with
    [("SERVICE", "RENDERGEOJSON"); ("GEOJSON", "map.geojson"); ("STYLE", "style.qml");
     ("WIDTH", "100"); ("HEIGHT", "abc"); ("BBOX", "0,0,10,10")].

Definition dpi_x : State :=
  request_with
    [("SERVICE", "RENDERGEOJSON"); ("GEOJSON", "map.geojson"); ("STYLE", "style.qml");
     ("WIDTH", "100"); ("HEIGHT", "100"); ("DPI", "x"); ("BBOX", "0,0,10,10")].

(** ** Order of validation *)

(** The exception a reading raises, if any. *)
Definition failure {A} (r : result A) : option exn :=
  match r with
  | inl e => Some e
  | inr _ => None
  end.







(** ** The bounding box *)

(** [BBOX] is absent, or has not exactly four components between commas,
    or has a component that [float] rejects. *)
Definition bbox_malformed (params : params_t) : Prop :=
  match params !! "BBOX" with
  | None => True
  | Some v =>
      length (PyStr.split "," v) <> 4%nat \/
      exists c, c ∈ PyStr.split "," v /\ PyNum.py_float c = None
  end.

(** The five readings before [BBOX] succeed. *)
Definition reaches_BBOX (params : params_t) (g s : string) (wd ht d : Z) : Prop :=
  read_GEOJSON params = inr g /\ read_STYLE params = inr s /\
  read_WIDTH params = inr wd /\ read_HEIGHT params = inr ht /\ read_DPI params = inr d.

Definition rect_1_2_3_4 : QgsRectangle :=
  mkQgsRectangle (PyNum.of_Z 1) (PyNum.of_Z 2) (PyNum.of_Z 3) (PyNum.of_Z 4).

Definition bbox_three : params_t :=
  list_to_map [("GEOJSON", "map.geojson"); ("STYLE", "style.qml"); ("WIDTH", "100");
               ("HEIGHT", "100"); ("BBOX", "1,2,3")].

Definition bbox_four : params_t :=
  list_to_map [("GEOJSON", "map.geojson"); ("STYLE", "style.qml"); ("WIDTH", "100");
               ("HEIGHT", "100"); ("BBOX", "1,2,3,4")].

(** ** The resolver *)

(** The calls made between two states of one run. *)
Definition new_calls (st st' : State) : list Event :=
  drop (length (calls st)) (calls st').

Definition fetches (evs : list Event) : list string :=
  omap (fun ev => match ev with EvFetch u => Some u | _ => None end) evs.

Definition resolves (evs : list Event) : list string :=
  omap (fun ev => match ev with EvResolve u => Some u | _ => None end) evs.

Definition renders (evs : list Event) : list QgsMapSettings :=
  omap (fun ev => match ev with EvRender s => Some s | _ => None end) evs.

(** The contract of [_resolve_url] in the words of the specification,
    up to [on_failure], the error of a resolution whose download raised.
    A prefix is configured when [prefix_path] is a non-empty string;
    [prefix/ref] is [os.path.join(prefix, ref)]. *)
Definition resolver_contract (on_failure : string -> lib_exn -> exn)
    (w : World) (self : RenderGeojsonFilter) (ref : string) : Prop :=
  forall st,
    let st' := (_resolve_url w self ref st).1 in
    let r := (_resolve_url w self ref st).2 in
    request st' = request st /\ message_log st' = message_log st /\
    match prefix_path self with
    | Some prefix =>
        if negb (String.eqb prefix "") && path_exists w (os_path_join prefix ref)
        then r = inr (os_path_join prefix ref) /\ fetches (new_calls st st') = []
        else fetches (new_calls st st') = [ref] /\
             r = match urlretrieve w ref with
                 | inr f => inr f
                 | inl e => inl (on_failure ref e)
                 end
    | None =>
        fetches (new_calls st st') = [ref] /\
        r = match urlretrieve w ref with
            | inr f => inr f
            | inl e => inl (on_failure ref e)
            end
    end.

(** The claim: every failed download gives the "not found" error. *)
Definition not_found_always (ref : string) (e : lib_exn) : exn :=
  ParameterError (not_found_msg ref).

(** The code: the "not found" error for a [ValueError] of the download,
    the exception of the download itself otherwise. *)
Definition not_found_on_ValueError (ref : string) (e : lib_exn) : exn :=
  if is_ValueError (Raised e) then ParameterError (not_found_msg ref) else Raised e.

(** The refusal of an output size that does not fit C integers. *)
Definition c_int_sizes (settings : QgsMapSettings) : option lib_exn :=
  let fits (n : Z) := ((- 2 ^ 31 <=? n) && (n <? 2 ^ 31))%Z in
  if fits (outputSize settings).1 && fits (outputSize settings).2 then None
  else Some (LibError "OverflowError"
               "argument 1 overflowed: value must be in the range -2147483648 to 2147483647").

(** A world without network: a URL is unreachable, anything else is no
    URL at all.  The files listed exist, an output size must fit C
    integers, and the engine returns an image. *)
Definition offline (files : list string) : World :=
  mkWorld
    (fun p => bool_decide (p ∈ files))
    (fun u =>
       if PyStr.startswith "http://" u || PyStr.startswith "https://" u
       then inl (LibError "URLError" "<urlopen error [Errno -2] Name or service not known>")
       else inl (LibValueError "ValueError" ("unknown url type: " +:+ PyNum.repr u)))
    c_int_sizes
    (fun _ => inr "PNG")
    (fun e => "Traceback (most recent call last): " +:+ type_name e +:+ ": " +:+ exn_str e).

Definition no_prefix : RenderGeojsonFilter := mkFilter None.
Definition data_prefix : RenderGeojsonFilter := mkFilter (Some "/data").

(** ** Style references *)

Definition styled_by_type : State :=
  request_with
    [("SERVICE", "RENDERGEOJSON"); ("GEOJSON", "map.geojson"); ("STYLE", "style_$type.qml");
     ("WIDTH", "100"); ("HEIGHT", "100"); ("BBOX", "0,0,10,10")].

Definition styled_once : State :=
  request_with
    [("SERVICE", "RENDERGEOJSON"); ("GEOJSON", "map.geojson"); ("STYLE", "style.qml");
     ("WIDTH", "100"); ("HEIGHT", "100"); ("BBOX", "0,0,10,10")].

Definition data_files : list string :=
  ["/data/map.geojson"; "/data/style.qml"; "/data/style_polygons.qml";
   "/data/style_lines.qml"; "/data/style_points.qml"].

(** The files of [data_files] without the style of the lines. *)
Definition data_files_without_lines : list string :=
  ["/data/map.geojson"; "/data/style.qml"; "/data/style_polygons.qml";
   "/data/style_points.qml"].

(** The style files read into layers, each with the name of its layer,
    in the order of the calls. *)
Definition attached (evs : list Event) : list (string * string) :=
  omap (fun ev =>
          match ev with
          | EvLoadStyle layer style => Some (layer_name layer, style)
          | _ => None
          end) evs.

(** The calls [evs] of a request resolve and attach the styles as the
    specification says: with [$type] in the style reference, the
    resolver is called for the dataset and then exactly three times, for
    the reference with [polygons], [lines] and [points] in the place of
    [$type], and the three results are attached to the polygon, line and
    point layers; without it, the resolver is called exactly once for the
    style and its result is attached to all three layers. *)
Definition styles_resolved_and_attached (w : World) (self : RenderGeojsonFilter)
    (rq : RenderRequest) (evs : list Event) : Prop :=
  exists p l pt,
    attached evs = [("polygons", p); ("lines", l); ("points", pt)] /\
    if PyStr.contains "$type" (style rq) then
      resolves evs = [geojson rq;
                      PyStr.replace "$type" "polygons" (style rq);
                      PyStr.replace "$type" "lines" (style rq);
                      PyStr.replace "$type" "points" (style rq)] /\
      resolve_result w self (PyStr.replace "$type" "polygons" (style rq)) = inr p /\
      resolve_result w self (PyStr.replace "$type" "lines" (style rq)) = inr l /\
      resolve_result w self (PyStr.replace "$type" "points" (style rq)) = inr pt
    else
      resolves evs = [geojson rq; style rq] /\
      resolve_result w self (style rq) = inr p /\ l = p /\ pt = p.

(** The claim: so it is for every request that passes validation. *)
Definition style_resolution_as_stated (w : World) (self : RenderGeojsonFilter) (st : State)
  : Prop :=
  forall rq,
    validate (parameterMap (request st)) = inr rq ->
    styles_resolved_and_attached w self rq (new_calls st (handle_requests w self st).1).

(** ** Failures at the dispatcher *)

(** The exception raised while the dataset and the styles are resolved,
    if any. *)
Definition resolution_failure (w : World) (self : RenderGeojsonFilter) (rq : RenderRequest)
  : option exn :=
  failure (g ← resolve_result w self (geojson rq); styles_result w self (style rq)).

(** The form in which a failed resolution reaches the client, [form]
    giving the body for the exception raised. *)
Definition resolution_failure_surfaces (form : World -> exn -> string)
    (w : World) (self : RenderGeojsonFilter) (st : State) : Prop :=
  claimed (request st) = true ->
  forall rq e,
    validate (parameterMap (request st)) = inr rq ->
    resolution_failure w self rq = Some e ->
    responseHeaders (request (responseComplete w self st).1) !! "Content-type"
      = Some "text/plain" /\
    responseBody (request (responseComplete w self st).1) = form w e.

(** The unexpected-error form: the marker, then the full detail. *)
Definition unexpected_form (w : World) (e : exn) : string := marker +:+ format_exc w e.

Definition missing_dataset : State :=
  request_with
    [("SERVICE", "RENDERGEOJSON"); ("GEOJSON", "missing.geojson"); ("STYLE", "style.qml");
     ("WIDTH", "100"); ("HEIGHT", "100"); ("BBOX", "0,0,10,10")].

Definition unreachable_dataset : State :=
  request_with
    [("SERVICE", "RENDERGEOJSON"); ("GEOJSON", "http://tiles.invalid/map.geojson");
     ("STYLE", "style.qml"); ("WIDTH", "100"); ("HEIGHT", "100"); ("BBOX", "0,0,10,10")].

Definition example_rq (dataset : string) : RenderRequest :=
  mkRenderRequest dataset "style.qml" 100 100 96
    (mkQgsRectangle (PyNum.of_Z 0) (PyNum.of_Z 0) (PyNum.of_Z 10) (PyNum.of_Z 10)).

(** ** Validation failures at the dispatcher *)

(** The response to a claimed request that fails validation, [logged]
    being the messages the failure adds to the log. *)
Definition validation_failure_response (logged : list string)
    (w : World) (self : RenderGeojsonFilter) (st : State) : Prop :=
  claimed (request st) = true ->
  forall msg,
    validate (parameterMap (request st)) = inl (ParameterError msg) ->
    responseHeaders (request (responseComplete w self st).1) = {[ "Content-type" := "text/plain" ]} /\
    responseBody (request (responseComplete w self st).1) = msg /\
    message_log (responseComplete w self st).1 = (message_log st ++ logged)%list.

Definition no_parameters : State := request_with [("SERVICE", "RENDERGEOJSON")].

(** ** Claiming a request *)

(** [s] without its first [n] bytes. *)
Fixpoint string_drop (n : nat) (s : string) : string :=
  match n, s with
  | S k, String _ s' => string_drop k s'
  | _, _ => s
  end.

Definition long_s : string := String "197" (String "191" "").
Definition dotless_i : string := String "196" (String "177" "").

(** The ways of writing the capital letter [c] in either case, in UTF-8:
    the capital, the small letter and, for [S] and [I], the two other
    small letters of Unicode that have them as capital, the long s
    (U+017F) and the dotless i (U+0131).  Any other character is written
    in one way. *)
Definition case_variants (c : ascii) : list string :=
  if (65 <=? N_of_ascii c)%N && (N_of_ascii c <=? 90)%N then
    String c "" :: String (ascii_of_N (N_of_ascii c + 32)) "" ::
      (if Ascii.eqb c "S" then [long_s]
       else if Ascii.eqb c "I" then [dotless_i]
       else [])
  else [String c ""].

(** [v] is [target] up to the case of its letters: it is made of one
    way of writing each character of [target], in order.  ([target] is
    a word of capital letters no two neighbours of which are the capital
    of one character, as [SS] is of the sharp s.) *)
Fixpoint eq_ignore_case (target v : string) : bool :=
  match target with
  | EmptyString => String.eqb v ""
  | String t target' =>
      existsb
        (fun variant =>
           PyStr.startswith variant v
           && eq_ignore_case target' (string_drop (String.length variant) v))
        (case_variants t)
  end.

(** [SERVICE] is present and equals [RENDERGEOJSON] up to case. *)
Definition service_is_rendergeojson (params : params_t) : bool :=
  match params !! "SERVICE" with
  | Some v => eq_ignore_case "RENDERGEOJSON" v
  | None => false
  end.

(** One of [a] and [b] begins with the other. *)
Definition comparable (a b : string) : bool :=
  PyStr.startswith a b || PyStr.startswith b a.

(** [PyStr.upper_table] on a way of writing [t]: when it is [t] itself,
    no key begins as it does; otherwise it is a key, the only one that
    begins as it does, and its capital is [t]. *)
Definition variant_agrees (t : ascii) (variant : string) : bool :=
  negb (String.eqb variant "")
  && match List.find (fun ku : string * string => comparable ku.1 variant) PyStr.upper_table with
     | None => String.eqb variant (String t "")
     | Some (k, u) => String.eqb k variant && String.eqb u (String t "")
     end.

(** [PyStr.upper_table] on the capitals that begin the word [t]
    [target']: such a capital is [t] alone and its key is one of the ways
    of writing [t]. *)
Definition keys_agree (t : ascii) (target' : string) : bool :=
  forallb
    (fun ku : string * string =>
       negb (String.eqb ku.1 "")
       && implb (PyStr.startswith ku.2 (String t target'))
            (String.eqb ku.2 (String t "")
             && existsb (String.eqb ku.1) (case_variants t)))
    PyStr.upper_table.

(** [PyStr.upper_table] agrees with the ways of writing every character
    of [target]. *)
Fixpoint table_agrees (target : string) : bool :=
  match target with
  | EmptyString => forallb (fun ku : string * string => negb (String.eqb ku.2 "")) PyStr.upper_table
  | String t target' =>
      forallb (variant_agrees t) (case_variants t) && keys_agree t target'
      && table_agrees target'
  end.

(** The one response to a claimed request: its content type and body. *)
Definition response_of (w : World) (self : RenderGeojsonFilter) (params : params_t)
  : string * string :=
  match (outcome w self params).1 with
  | inr image_data => ("image/png", image_data)
  | inl e => ("text/plain", error_body w e)
  end.

(** ** Further vocabulary *)

(** The references of [refs] that are handed to the resolver: all of
    them up to and including the first whose resolution fails. *)
Fixpoint until_failure (w : World) (self : RenderGeojsonFilter) (refs : list string)
  : list string :=
  match refs with
  | [] => []
  | r :: rest =>
      r :: match resolve_result w self r with
           | inr _ => until_failure w self rest
           | inl _ => []
           end
  end.

(** The references of a validated request, in the order of resolution. *)
Definition request_refs (rq : RenderRequest) : list string :=
  geojson rq :: style_refs (style rq).

(** The parameters validation reads. *)
Definition validated_keys : list string :=
  ["GEOJSON"; "STYLE"; "WIDTH"; "HEIGHT"; "DPI"; "BBOX"].

Definition example_rq_by_type : RenderRequest :=
  mkRenderRequest "map.geojson" "style_$type.qml" 100 100 96
    (mkQgsRectangle (PyNum.of_Z 0) (PyNum.of_Z 0) (PyNum.of_Z 10) (PyNum.of_Z 10)).

(** A world like [offline] whose rendering engine raises. *)
Definition broken_engine (files : list string) : World :=
  mkWorld (path_exists (offline files)) (urlretrieve (offline files)) c_int_sizes
    (fun _ => inl (LibError "RuntimeError" "render job failed"))
    (format_exc (offline files)).

(** * Properties *)

(** ** Running statements *)

Lemma with_calls_nil st : with_calls st [] = st.
Proof. destruct st; unfold with_calls; simpl. by rewrite app_nil_r. Qed.

Lemma with_calls_app st a b : with_calls (with_calls st a) b = with_calls st (a ++ b).
Proof. unfold with_calls; simpl. by rewrite app_assoc. Qed.

Lemma bind_run {A B} (c : M A) (k : A -> M B) st :
  (c ≫= k) st = match c st with (st', inr a) => k a st' | (st', inl e) => (st', inl e) end.
Proof. reflexivity. Qed.

Lemma call_run ev st : call ev st = (with_calls st [ev], inr tt).
Proof. reflexivity. Qed.

Ltac run := repeat (rewrite ?bind_run, ?call_run; simpl).

(** Closes an equation between two runs up to the bracketing of the calls. *)
Ltac same_run := rewrite ?with_calls_app, ?app_nil_r, <- ?app_assoc; reflexivity.

(** ** The resolver, as a function of the world *)

Lemma startswith_nonempty p s : p ≠ "" -> PyStr.startswith p s = true -> s ≠ "".
Proof. destruct p, s; simpl; intros Hp Hs; done. Qed.

Lemma append_nonempty a b : a ≠ "" -> a +:+ b ≠ "".
Proof. destruct a; simpl; intros Ha; done. Qed.

Lemma os_path_join_nonempty a b : a ≠ "" -> os_path_join a b ≠ "".
Proof.
  intros Ha. unfold os_path_join.
  destruct (PyStr.startswith "/" b) eqn:Hb.
  - apply (startswith_nonempty "/" b); [discriminate | exact Hb].
  - destruct (_ || _); by apply append_nonempty.
Qed.

Lemma download_run w url st :
  download w url st = (with_calls st [EvFetch url], fetch_result w url).
Proof.
  unfold download, fetch_result. run.
  destruct (urlretrieve w url) as [e|f]; [|done].
  by destruct e.
Qed.

Lemma _resolve_url_run w self url st :
  _resolve_url w self url st =
  (with_calls st (resolve_events w self url), resolve_result w self url).
Proof.
  unfold _resolve_url, resolve_events, resolve_result, local_candidate. run.
  destruct (prefix_path self) as [p|] eqn:Hp; simpl.
  - destruct (String.eqb_spec p "") as [->|Hne]; simpl.
    + by rewrite download_run, with_calls_app.
    + destruct (String.eqb_spec (os_path_join p url) "") as [He|_].
      { by apply os_path_join_nonempty in He. }
      simpl. run. destruct (path_exists w (os_path_join p url)); simpl.
      * by rewrite with_calls_app.
      * by rewrite download_run, !with_calls_app.
  - by rewrite download_run, with_calls_app.
Qed.

(** ** The pipeline of [handle_requests], as a function of the world *)

Lemma resolve_styles_run w self style st :
  resolve_styles w self style st =
  (with_calls st (resolve_seq_events w self (style_refs style)), styles_result w self style).
Proof.
  unfold resolve_styles, style_refs, styles_result.
  destruct (PyStr.contains "$type" style); cbn [resolve_seq_events].
  - rewrite bind_run, _resolve_url_run.
    destruct (resolve_result w self (PyStr.replace "$type" "polygons" style)) as [e|p];
      [same_run|].
    rewrite bind_run, _resolve_url_run, with_calls_app.
    destruct (resolve_result w self (PyStr.replace "$type" "lines" style)) as [e|l];
      [same_run|].
    rewrite bind_run, _resolve_url_run, with_calls_app.
    destruct (resolve_result w self (PyStr.replace "$type" "points" style)) as [e|pt];
      same_run.
  - rewrite bind_run, _resolve_url_run.
    destruct (resolve_result w self style) as [e|s]; same_run.
Qed.

Lemma load_styles_run g styles st :
  load_styles g styles st = (with_calls st (load_events g styles), inr tt).
Proof.
  destruct styles as [[p l] pt]. unfold load_styles, load_events.
  rewrite bind_run, call_run. cbn iota. rewrite bind_run, call_run. cbn iota.
  rewrite call_run, !with_calls_app. reflexivity.
Qed.

Lemma handle_requests_run w self st :
  handle_requests w self st =
  match validate (parameterMap (request st)) with
  | inl e => (st, inl e)
  | inr rq =>
      match pipeline_result w self rq with
      | inl e => (with_calls st (pipeline_events w self rq), inl e)
      | inr image_data =>
          (respond "image/png" image_data (with_calls st (pipeline_events w self rq)), inr tt)
      end
  end.
Proof.
  unfold handle_requests, pipeline_result, pipeline_events, render_events.
  rewrite bind_run. unfold lift.
  destruct (validate (parameterMap (request st))) as [e|rq]; [reflexivity|].
  rewrite bind_run, _resolve_url_run.
  destruct (resolve_result w self (geojson rq)) as [e|g]; [same_run|].
  rewrite bind_run, resolve_styles_run, with_calls_app.
  destruct (styles_result w self (style rq)) as [e|styles]; cbn [mbind result_bind and_then].
  { same_run. }
  rewrite bind_run, load_styles_run, with_calls_app.
  unfold render, render_png.
  destruct (configure w (map_settings rq g styles)).
  { rewrite bind_run. unfold raise. same_run. }
  rewrite !bind_run, call_run. cbn iota. rewrite with_calls_app.
  destruct (run_job w (map_settings rq g styles)); same_run.
Qed.

(** ** The dispatcher, as a function of the world *)

Lemma append_assoc (a b c : string) : (a +:+ b) +:+ c = a +:+ (b +:+ c).
Proof.
  induction a as [|x a IH]; [reflexivity|].
  change (String x ((a +:+ b) +:+ c) = String x (a +:+ (b +:+ c))).
  by rewrite IH.
Qed.

Lemma on_exception_run w e st :
  on_exception w e st =
  (respond "text/plain" (error_body w e) (with_log st (error_log w e)), inr tt).
Proof.
  unfold on_exception, error_body, error_log, respond, with_log, marker.
  unfold logMessage, setResponseHeader, appendBody, on_request.
  destruct (is_ParameterError e); rewrite !bind_run; cbn; [reflexivity|].
  rewrite append_assoc, <- app_assoc. reflexivity.
Qed.

Lemma responseComplete_run w self st :
  responseComplete w self st =
  if claimed (request st) then
    let '(r, evs) := outcome w self (parameterMap (request st)) in
    let st1 := with_calls (cleared st) evs in
    match r with
    | inr image_data => (respond "image/png" image_data st1, inr tt)
    | inl e => (respond "text/plain" (error_body w e) (with_log st1 (error_log w e)), inr tt)
    end
  else (st, inr tt).
Proof.
  unfold responseComplete, outcome.
  destruct (claimed (request st)); [|reflexivity]. cbn [negb].
  rewrite bind_run. change (clear st) with (cleared st, inr tt : result unit).
  unfold try_catch. rewrite handle_requests_run.
  change (parameterMap (request (cleared st))) with (parameterMap (request st)).
  destruct (validate (parameterMap (request st))) as [e|rq].
  - by rewrite on_exception_run, with_calls_nil.
  - destruct (pipeline_result w self rq) as [e|d]; [|reflexivity].
    by rewrite on_exception_run.
Qed.

(** ** Reading the parameters *)

Arguments PyNum.py_int : simpl never.
Arguments PyNum.py_float : simpl never.
Arguments PyNum.repr : simpl never.
Arguments PyStr.split : simpl never.

Section read_int.
Variable params : params_t.

Lemma read_GEOJSON_cases :
  read_GEOJSON params =
  match params !! "GEOJSON" with
  | Some v => inr v
  | None => inl (ParameterError GEOJSON_msg)
  end.
Proof. unfold read_GEOJSON, getitem. by destruct (params !! "GEOJSON"). Qed.

Lemma read_STYLE_cases :
  read_STYLE params =
  match params !! "STYLE" with
  | Some v => inr v
  | None => inl (ParameterError STYLE_msg)
  end.
Proof. unfold read_STYLE, getitem. by destruct (params !! "STYLE"). Qed.

(** [WIDTH]: only the missing key reaches the [except] clause; a value
    that is no integer leaves the block as the [ValueError] of [int]. *)
Lemma read_WIDTH_cases :
  read_WIDTH params =
  match params !! "WIDTH" with
  | None => inl (ParameterError WIDTH_msg)
  | Some v =>
      match PyNum.py_int v with
      | Some n => inr n
      | None => inl (int_error v)
      end
  end.
Proof.
  unfold read_WIDTH, getitem, int_, int_error.
  destruct (params !! "WIDTH") as [v|]; [|reflexivity].
  cbn. by destruct (PyNum.py_int v).
Qed.

Lemma read_HEIGHT_cases :
  read_HEIGHT params =
  match params !! "HEIGHT" with
  | None => inl (ParameterError HEIGHT_msg)
  | Some v =>
      match PyNum.py_int v with
      | Some n => inr n
      | None => inl (int_error v)
      end
  end.
Proof.
  unfold read_HEIGHT, getitem, int_, int_error.
  destruct (params !! "HEIGHT") as [v|]; [|reflexivity].
  cbn. by destruct (PyNum.py_int v).
Qed.

Lemma read_DPI_cases :
  read_DPI params =
  match params !! "DPI" with
  | None => inr 96
  | Some v =>
      match PyNum.py_int v with
      | Some n => inr n
      | None => inl (int_error v)
      end
  end.
Proof.
  unfold read_DPI, getitem, int_, int_error.
  destruct (params !! "DPI") as [v|]; [|reflexivity].
  cbn. by destruct (PyNum.py_int v).
Qed.
End read_int.

Lemma read_BBOX_cases (params : params_t) :
  read_BBOX params =
  match params !! "BBOX" with
  | None => inl (ParameterError BBOX_msg)
  | Some v =>
      match PyStr.split "," v with
      | [a; b; c; d] =>
          match PyNum.py_float a, PyNum.py_float b, PyNum.py_float c, PyNum.py_float d with
          | Some x0, Some y0, Some x1, Some y1 => inr (mkQgsRectangle x0 y0 x1 y1)
          | _, _, _, _ => inl (ParameterError BBOX_msg)
          end
      | _ => inl (ParameterError BBOX_msg)
      end
  end.
Proof.
  unfold read_BBOX, get_split.
  destruct (params !! "BBOX") as [v|]; [|reflexivity].
  destruct (PyStr.split "," v) as [|a [|b [|c [|d [|x l]]]]]; try reflexivity.
  cbn [mbind result_bind and_then unpack4]. unfold float_.
  destruct (PyNum.py_float a); [|reflexivity].
  destruct (PyNum.py_float b); [|reflexivity].
  destruct (PyNum.py_float c); [|reflexivity].
  destruct (PyNum.py_float d); reflexivity.
Qed.

(** The effective resolution is the one handed to the renderer. *)
Lemma DPI_rendered rq g styles : outputDpi (map_settings rq g styles) = dpi rq.
Proof. by destruct styles as [[p l] pt]. Qed.

Lemma DPI_default (params : params_t) : params !! "DPI" = None -> read_DPI params = inr 96.
Proof. intros H. by rewrite read_DPI_cases, H. Qed.

Lemma DPI_given (params : params_t) v n :
  params !! "DPI" = Some v -> PyNum.py_int v = Some n -> read_DPI params = inr n.
Proof. intros H Hn. by rewrite read_DPI_cases, H, Hn. Qed.

Lemma DPI_not_integer (params : params_t) v :
  params !! "DPI" = Some v -> PyNum.py_int v = None -> read_DPI params = inl (int_error v).
Proof. intros H Hn. by rewrite read_DPI_cases, H, Hn. Qed.

Lemma WIDTH_absent (params : params_t) :
  params !! "WIDTH" = None -> read_WIDTH params = inl (ParameterError WIDTH_msg).
Proof. intros H. by rewrite read_WIDTH_cases, H. Qed.

Lemma WIDTH_not_integer (params : params_t) v :
  params !! "WIDTH" = Some v -> PyNum.py_int v = None -> read_WIDTH params = inl (int_error v).
Proof. intros H Hn. by rewrite read_WIDTH_cases, H, Hn. Qed.

Lemma HEIGHT_absent (params : params_t) :
  params !! "HEIGHT" = None -> read_HEIGHT params = inl (ParameterError HEIGHT_msg).
Proof. intros H. by rewrite read_HEIGHT_cases, H. Qed.

Lemma HEIGHT_not_integer (params : params_t) v :
  params !! "HEIGHT" = Some v -> PyNum.py_int v = None -> read_HEIGHT params = inl (int_error v).
Proof. intros H Hn. by rewrite read_HEIGHT_cases, H, Hn. Qed.

(** A failed validation leaves [handle_requests] at once. *)
Lemma handle_requests_invalid w self st e :
  validate (parameterMap (request st)) = inl e -> handle_requests w self st = (st, inl e).
Proof. intros H. by rewrite handle_requests_run, H. Qed.

(** ** Validation of the integer parameters *)

(** C1, at the request [WIDTH=abc] (and at [HEIGHT=abc]): the value does
    not parse as an integer, yet no validation error is raised.  [int]
    raises a [ValueError], which the clause [except (KeyError, TypeError)]
    lets through; [handle_requests] ends with that [ValueError] before any
    call is made, and the client receives the marker followed by the
    traceback, not the text [Parameter WIDTH must be integer.]. *)
Theorem width_abc_is_unhandled (w : World) (self : RenderGeojsonFilter) :
  (handle_requests w self width_abc = (width_abc, inl (int_error "abc")) /\
   is_ParameterError (int_error "abc") = false /\
   responseBody (request (responseComplete w self width_abc).1)
     = marker +:+ format_exc w (int_error "abc") /\
   responseBody (request (responseComplete w self width_abc).1) <> WIDTH_msg) /\
  (handle_requests w self height_abc = (height_abc, inl (int_error "abc")) /\
   responseBody (request (responseComplete w self height_abc).1)
     = marker +:+ format_exc w (int_error "abc") /\
   responseBody (request (responseComplete w self height_abc).1) <> HEIGHT_msg).
Proof.
  assert (Hw : validate (parameterMap (request width_abc)) = inl (int_error "abc"))
    by (vm_compute; reflexivity).
  assert (Hh : validate (parameterMap (request height_abc)) = inl (int_error "abc"))
    by (vm_compute; reflexivity).
  assert (Hcw : claimed (request width_abc) = true) by (vm_compute; reflexivity).
  assert (Hch : claimed (request height_abc) = true) by (vm_compute; reflexivity).
  rewrite !responseComplete_run, Hcw, Hch. unfold outcome. rewrite Hw, Hh.
  refine (conj (conj _ (conj _ (conj _ _))) (conj _ (conj _ _))).
  - by apply handle_requests_invalid.
  - reflexivity.
  - reflexivity.
  - discriminate.
  - by apply handle_requests_invalid.
  - reflexivity.
  - discriminate.
Qed.

(** C2, at the request [DPI=x]: the value does not parse as an integer,
    yet no validation error is raised.  The [ValueError] of [int] passes
    the clauses [except TypeError] and [except KeyError]; the client
    receives the marker followed by the traceback, not the text
    [Parameter DPI must be integer.].  (The two other cases of the claim
    hold: [DPI_default], [DPI_given], [DPI_rendered].) *)
Theorem dpi_x_is_unhandled (w : World) (self : RenderGeojsonFilter) :
  handle_requests w self dpi_x = (dpi_x, inl (int_error "x")) /\
  is_ParameterError (int_error "x") = false /\
  responseBody (request (responseComplete w self dpi_x).1)
    = marker +:+ format_exc w (int_error "x") /\
  responseBody (request (responseComplete w self dpi_x).1) <> DPI_msg.
Proof.
  assert (Hv : validate (parameterMap (request dpi_x)) = inl (int_error "x"))
    by (vm_compute; reflexivity).
  assert (Hc : claimed (request dpi_x) = true) by (vm_compute; reflexivity).
  rewrite !responseComplete_run, Hc. unfold outcome. rewrite Hv.
  refine (conj _ (conj _ (conj _ _))).
  - by apply handle_requests_invalid.
  - reflexivity.
  - reflexivity.
  - discriminate.
Qed.

(** ** Order of validation *)

Lemma read_BBOX_own_parameter (p p' : params_t) :
  p !! "BBOX" = p' !! "BBOX" -> read_BBOX p = read_BBOX p'.
Proof. intros H. unfold read_BBOX, get_split. by rewrite H. Qed.









(** ** The bounding box *)

Lemma unpack4_wrong_length (l : list string) :
  length l <> 4%nat -> exists msg, unpack4 l = inl (ValueError msg).
Proof.
  intros H. unfold unpack4.
  destruct l as [|a [|b [|c [|d [|x l]]]]]; simpl in *; try done; by eexists.
Qed.

Lemma read_BBOX_malformed (params : params_t) :
  bbox_malformed params -> read_BBOX params = inl (ParameterError BBOX_msg).
Proof.
  unfold bbox_malformed, read_BBOX, get_split.
  destruct (params !! "BBOX") as [v|]; [|reflexivity].
  intros [Hlen | (c & Hc & Hnone)].
  - destruct (unpack4_wrong_length _ Hlen) as [msg Hmsg].
    cbn [mbind result_bind and_then]. by rewrite Hmsg.
  - destruct (decide (length (PyStr.split "," v) = 4%nat)) as [Hlen|Hlen].
    2:{ destruct (unpack4_wrong_length _ Hlen) as [msg Hmsg].
        cbn [mbind result_bind and_then]. by rewrite Hmsg. }
    destruct (PyStr.split "," v) as [|x0 [|y0 [|x1 [|y1 [|z l]]]]]; try discriminate Hlen.
    cbn [mbind result_bind and_then unpack4]. unfold float_.
    destruct (PyNum.py_float x0) eqn:E0; [|reflexivity].
    destruct (PyNum.py_float y0) eqn:E1; [|reflexivity].
    destruct (PyNum.py_float x1) eqn:E2; [|reflexivity].
    destruct (PyNum.py_float y1) eqn:E3; [|reflexivity].
    exfalso. rewrite !elem_of_cons, elem_of_nil in Hc.
    destruct Hc as [->|[->|[->|[->|[]]]]]; congruence.
Qed.

(** C4.  When [BBOX] is absent, is not a comma-separated list of exactly
    four components, or has a component that does not parse as a float,
    its check fails with the message [BBOX_msg], and so does validation
    whenever the parameters before it are accepted; and for
    [BBOX=1,2,3,4] the check succeeds with the extent (1, 2, 3, 4), which
    is then the extent of the validated request. *)
Theorem bbox_validation (params : params_t) :
  (bbox_malformed params ->
     read_BBOX params = inl (ParameterError BBOX_msg) /\
     forall g s wd ht d, reaches_BBOX params g s wd ht d ->
       validate params = inl (ParameterError BBOX_msg)) /\
  (params !! "BBOX" = Some "1,2,3,4" ->
     read_BBOX params = inr rect_1_2_3_4 /\
     forall g s wd ht d, reaches_BBOX params g s wd ht d ->
       validate params = inr (mkRenderRequest g s wd ht d rect_1_2_3_4)).
Proof.
  split.
  - intros Hbad. split; [by apply read_BBOX_malformed|].
    intros g s wd ht d (Hg & Hs & Hw & Hh & Hd).
    unfold validate. by rewrite Hg, Hs, Hw, Hh, Hd, (read_BBOX_malformed _ Hbad).
  - intros Hb.
    assert (read_BBOX params = inr rect_1_2_3_4) as Hr.
    { unfold read_BBOX, get_split. rewrite Hb. vm_compute. reflexivity. }
    split; [exact Hr|].
    intros g s wd ht d (Hg & Hs & Hw & Hh & Hd).
    unfold validate. by rewrite Hg, Hs, Hw, Hh, Hd, Hr.
Qed.

Lemma bbox_validation_witness :
  validate bbox_three = inl (ParameterError BBOX_msg) /\
  validate bbox_four
    = inr (mkRenderRequest "map.geojson" "style.qml" 100 100 96 rect_1_2_3_4).
Proof.
  split.
  - refine (proj2 (proj1 (bbox_validation bbox_three) _)
              "map.geojson" "style.qml" 100 100 96 _).
    + left. vm_compute. lia.
    + repeat split; vm_compute; reflexivity.
  - refine (proj2 (proj2 (bbox_validation bbox_four) _)
              "map.geojson" "style.qml" 100 100 96 _).
    + vm_compute. reflexivity.
    + repeat split; vm_compute; reflexivity.
Defined.

(** ** The resolver *)

Lemma new_calls_with_calls st evs : new_calls st (with_calls st evs) = evs.
Proof. unfold new_calls, with_calls; simpl. by rewrite drop_app_length. Qed.

Lemma fetches_resolve_events w self url :
  fetches (resolve_events w self url) = if found_locally w self url then [] else [url].
Proof.
  unfold resolve_events, found_locally.
  destruct (local_candidate self url) as [p|]; [|reflexivity].
  by destruct (path_exists w p).
Qed.

Lemma resolves_resolve_events w self url : resolves (resolve_events w self url) = [url].
Proof.
  unfold resolve_events.
  destruct (local_candidate self url) as [p|]; [|reflexivity].
  by destruct (path_exists w p).
Qed.

Lemma renders_resolve_events w self url : renders (resolve_events w self url) = [].
Proof.
  unfold resolve_events.
  destruct (local_candidate self url) as [p|]; [|reflexivity].
  by destruct (path_exists w p).
Qed.

(** C5 as stated fails: with no prefix, the download of an unreachable
    URL raises [URLError], and that exception, not the "not found" error,
    leaves [_resolve_url]. *)
Lemma resolver_unreachable_url :
  ~ resolver_contract not_found_always (offline []) no_prefix "http://tiles.invalid/map.geojson".
Proof.
  intros H. specialize (H (request_with [])).
  destruct H as (_ & _ & _ & H). vm_compute in H. discriminate H.
Qed.

(** C5, amended.  When a prefix is configured and [prefix/ref] exists,
    [_resolve_url] returns [prefix/ref] and attempts no download;
    otherwise it attempts exactly one download, of [ref], and returns
    the file it gave; when that download raises a [ValueError] the
    resolver raises the error "The file `ref` could not be found locally
    and not be retrieved as download.", and when it raises anything else
    that exception leaves the resolver unchanged.  The request and the
    log are untouched throughout. *)
Theorem resolver_local_then_download (w : World) (self : RenderGeojsonFilter) (ref : string) :
  resolver_contract not_found_on_ValueError w self ref.
Proof.
  intros st st' r. subst st' r. rewrite _resolve_url_run. cbn [fst snd].
  rewrite new_calls_with_calls, fetches_resolve_events.
  split; [reflexivity|]. split; [reflexivity|].
  unfold found_locally, resolve_result, local_candidate, fetch_result, not_found_on_ValueError.
  destruct (prefix_path self) as [prefix|]; [|by split].
  destruct (String.eqb prefix ""); cbn [negb andb]; [by split|].
  destruct (path_exists w (os_path_join prefix ref)); by split.
Qed.

(** ** Absolute references *)

(** C10.  With a prefix configured, an absolute reference is its own
    [prefix/ref]: the prefix is discarded, and when the referenced path
    exists the resolver returns it, wherever it lies, after the
    existence check alone. *)
Theorem absolute_reference_escapes_prefix (w : World) (self : RenderGeojsonFilter)
    (prefix ref : string) (st : State) :
  prefix_path self = Some prefix -> prefix <> "" ->
  PyStr.startswith "/" ref = true ->
  os_path_join prefix ref = ref /\
  (path_exists w ref = true ->
   _resolve_url w self ref st = (with_calls st [EvResolve ref; EvExists ref], inr ref)).
Proof.
  intros Hp Hne Habs.
  assert (Hjoin : os_path_join prefix ref = ref) by (unfold os_path_join; by rewrite Habs).
  split; [exact Hjoin|]. intros Hex.
  rewrite _resolve_url_run. unfold resolve_events, resolve_result, local_candidate.
  rewrite Hp. destruct (String.eqb_spec prefix "") as [->|_]; [done|].
  by rewrite Hjoin, Hex.
Qed.

Lemma absolute_reference_witness :
  os_path_join "/data" "/etc/hostname" = "/etc/hostname" /\
  _resolve_url (offline ["/etc/hostname"]) data_prefix "/etc/hostname" (request_with [])
  = (with_calls (request_with []) [EvResolve "/etc/hostname"; EvExists "/etc/hostname"],
     inr "/etc/hostname").
Proof.
  destruct (absolute_reference_escapes_prefix (offline ["/etc/hostname"]) data_prefix
              "/data" "/etc/hostname" (request_with [])) as [Hjoin Hres];
    [reflexivity | discriminate | reflexivity |].
  split; [exact Hjoin | apply Hres; vm_compute; reflexivity].
Defined.

(** ** The calls of a request *)

Lemma resolves_app a b : resolves (a ++ b) = (resolves a ++ resolves b)%list.
Proof. apply omap_app. Qed.

Lemma renders_app a b : renders (a ++ b) = (renders a ++ renders b)%list.
Proof. apply omap_app. Qed.

Lemma fetches_app a b : fetches (a ++ b) = (fetches a ++ fetches b)%list.
Proof. apply omap_app. Qed.

Lemma attached_app a b : attached (a ++ b) = (attached a ++ attached b)%list.
Proof. apply omap_app. Qed.

Lemma new_calls_refl st : new_calls st st = [].
Proof. unfold new_calls. by rewrite drop_all. Qed.

Lemma new_calls_respond st ct body evs :
  new_calls st (respond ct body (with_calls st evs)) = evs.
Proof. unfold new_calls, respond, with_calls; simpl. by rewrite drop_app_length. Qed.

(** The calls of a request that passes validation. *)
Lemma handle_requests_calls w self st rq :
  validate (parameterMap (request st)) = inr rq ->
  new_calls st (handle_requests w self st).1 = pipeline_events w self rq.
Proof.
  intros Hv. rewrite handle_requests_run, Hv.
  destruct (pipeline_result w self rq); cbn [fst].
  - apply new_calls_with_calls.
  - apply new_calls_respond.
Qed.

Lemma attached_resolve_events w self url : attached (resolve_events w self url) = [].
Proof.
  unfold resolve_events.
  destruct (local_candidate self url) as [p|]; [|reflexivity].
  by destruct (path_exists w p).
Qed.

Lemma resolves_seq_events w self refs :
  resolves (resolve_seq_events w self refs) = until_failure w self refs.
Proof.
  induction refs as [|r rest IH]; [reflexivity|].
  cbn [resolve_seq_events until_failure].
  rewrite resolves_app, resolves_resolve_events.
  destruct (resolve_result w self r); [reflexivity|]. by rewrite IH.
Qed.

Lemma renders_seq_events w self refs : renders (resolve_seq_events w self refs) = [].
Proof.
  induction refs as [|r rest IH]; [reflexivity|].
  cbn [resolve_seq_events]. rewrite renders_app, renders_resolve_events.
  by destruct (resolve_result w self r).
Qed.

Lemma attached_seq_events w self refs : attached (resolve_seq_events w self refs) = [].
Proof.
  induction refs as [|r rest IH]; [reflexivity|].
  cbn [resolve_seq_events]. rewrite attached_app, attached_resolve_events.
  by destruct (resolve_result w self r).
Qed.

Lemma fetches_seq_events w self refs :
  fetches (resolve_seq_events w self refs)
  = List.filter (fun r => negb (found_locally w self r)) (until_failure w self refs).
Proof.
  induction refs as [|r rest IH]; [reflexivity|].
  cbn [resolve_seq_events until_failure List.filter].
  rewrite fetches_app, fetches_resolve_events.
  destruct (resolve_result w self r); destruct (found_locally w self r); cbn [negb app];
    rewrite ?IH; reflexivity.
Qed.

Lemma until_failure_length w self refs :
  (length (until_failure w self refs) <= length refs)%nat.
Proof.
  induction refs as [|r rest IH]; [reflexivity|].
  cbn [until_failure length]. destruct (resolve_result w self r); cbn [length]; lia.
Qed.

Lemma style_refs_length style : (length (style_refs style) <= 3)%nat.
Proof. unfold style_refs. destruct (PyStr.contains "$type" style); cbn; lia. Qed.

(** The calls of the pipeline are those of resolving the references
    one after the other, followed by those of the layers and of the
    rendering when all resolved. *)
Lemma pipeline_events_seq w self rq :
  pipeline_events w self rq =
  (resolve_seq_events w self (request_refs rq) ++
   match resolve_result w self (geojson rq), styles_result w self (style rq) with
   | inr g, inr styles => render_events w rq g styles
   | _, _ => []
   end)%list.
Proof.
  unfold pipeline_events, request_refs, render_events.
  cbn [resolve_seq_events].
  destruct (resolve_result w self (geojson rq)) as [e|g].
  { by rewrite !app_nil_r. }
  rewrite <- app_assoc.
  by destruct (styles_result w self (style rq)).
Qed.

Lemma resolves_render_events w rq g styles : resolves (render_events w rq g styles) = [].
Proof. unfold render_events. by destruct (configure w (map_settings rq g styles)). Qed.

Lemma fetches_render_events w rq g styles : fetches (render_events w rq g styles) = [].
Proof. unfold render_events. by destruct (configure w (map_settings rq g styles)). Qed.

Lemma attached_render_events w rq g styles :
  attached (render_events w rq g styles)
  = [("polygons", styles.1.1); ("lines", styles.1.2); ("points", styles.2)].
Proof. unfold render_events. by destruct (configure w (map_settings rq g styles)). Qed.

(** After a failed resolution no call follows those of the resolver. *)
Lemma resolution_failure_events w self rq e :
  resolution_failure w self rq = Some e ->
  pipeline_events w self rq = resolve_seq_events w self (request_refs rq).
Proof.
  rewrite pipeline_events_seq. unfold resolution_failure.
  destruct (resolve_result w self (geojson rq)) as [e0|g];
    cbn [mbind result_bind and_then failure]; [by rewrite app_nil_r|].
  destruct (styles_result w self (style rq)); [by rewrite app_nil_r|discriminate].
Qed.

(** When every resolution succeeds, the calls of the layers and of the
    rendering follow those of the resolver. *)
Lemma resolved_events w self rq :
  resolution_failure w self rq = None ->
  exists g styles,
    resolve_result w self (geojson rq) = inr g /\
    styles_result w self (style rq) = inr styles /\
    pipeline_events w self rq
    = (resolve_seq_events w self (request_refs rq) ++ render_events w rq g styles)%list.
Proof.
  rewrite pipeline_events_seq. unfold resolution_failure.
  destruct (resolve_result w self (geojson rq)) as [e0|g];
    cbn [mbind result_bind and_then failure]; [discriminate|].
  destruct (styles_result w self (style rq)) as [e1|styles]; [discriminate|].
  intros _. by exists g, styles.
Qed.

(** What [handle_requests] raises is the error of [outcome]. *)
Lemma handle_requests_raises w self st e :
  (handle_requests w self st).2 = inl e <->
  (outcome w self (parameterMap (request st))).1 = inl e.
Proof.
  rewrite handle_requests_run. unfold outcome.
  destruct (validate (parameterMap (request st))) as [e'|rq]; [simpl; split; congruence|].
  destruct (pipeline_result w self rq); cbn [fst snd]; split; congruence.
Qed.

Lemma resolution_failure_outcome w self params rq e :
  validate params = inr rq -> resolution_failure w self rq = Some e ->
  (outcome w self params).1 = inl e.
Proof.
  intros Hv. unfold resolution_failure, outcome, pipeline_result. rewrite Hv.
  destruct (resolve_result w self (geojson rq)) as [e0|g];
    cbn [mbind result_bind and_then failure fst]; [congruence|].
  destruct (styles_result w self (style rq)) as [e1|s];
    cbn [mbind result_bind and_then failure]; [congruence|discriminate].
Qed.

(** ** Style references *)

(** C6 as stated fails: the request passes validation and its style
    reference contains [$type], but the style of the lines is neither a
    file under the prefix nor a URL.  Its resolution raises, the
    reference for the points is never resolved, and no style is attached
    to any layer. *)
Lemma lines_style_missing :
  ~ style_resolution_as_stated (offline data_files_without_lines) data_prefix styled_by_type.
Proof.
  intros H.
  destruct (H example_rq_by_type) as (p & l & pt & Hattached & _);
    [vm_compute; reflexivity|].
  vm_compute in Hattached. discriminate Hattached.
Qed.

(** C6, amended.  For a request that passes validation: when the
    dataset and every style reference resolve, the resolver is called
    for the dataset and then, with [$type] in the style reference,
    exactly three times, for the reference with [$type] replaced by
    [polygons], [lines] and [points], the three results being attached
    to the polygon, line and point layers, and, without [$type], exactly
    once for the style, the one result being attached to all three
    layers.  When a resolution raises, that exception leaves
    [handle_requests], the references after the failing one are not
    resolved, no style is attached to any layer and the rendering engine
    is not invoked. *)
Theorem style_resolution (w : World) (self : RenderGeojsonFilter) (st : State)
    (rq : RenderRequest) :
  validate (parameterMap (request st)) = inr rq ->
  let evs := new_calls st (handle_requests w self st).1 in
  match resolution_failure w self rq with
  | None => styles_resolved_and_attached w self rq evs
  | Some e =>
      (handle_requests w self st).2 = inl e /\
      resolves evs = until_failure w self (request_refs rq) /\
      (exists ref, last (resolves evs) = Some ref /\ resolve_result w self ref = inl e) /\
      attached evs = [] /\
      renders evs = []
  end.
Proof.
  intros Hv evs. subst evs. rewrite (handle_requests_calls _ _ _ _ Hv).
  destruct (resolution_failure w self rq) as [e|] eqn:Hf.
  - rewrite (resolution_failure_events _ _ _ _ Hf).
    rewrite resolves_seq_events, attached_seq_events, renders_seq_events.
    split; [|split; [reflexivity|split; [|split; reflexivity]]].
    + apply handle_requests_raises. by apply resolution_failure_outcome with rq.
    + revert Hf. unfold resolution_failure, request_refs, styles_result, style_refs.
      cbn [until_failure].
      destruct (resolve_result w self (geojson rq)) as [e0|g] eqn:Hg;
        cbn [mbind result_bind and_then failure].
      { intros [= <-]. by exists (geojson rq). }
      destruct (PyStr.contains "$type" (style rq)); cbn [until_failure].
      * destruct (resolve_result w self (PyStr.replace "$type" "polygons" (style rq)))
          as [e1|p] eqn:Hp; cbn [mbind result_bind and_then failure].
        { intros [= <-]. by eexists. }
        destruct (resolve_result w self (PyStr.replace "$type" "lines" (style rq)))
          as [e2|l] eqn:Hl; cbn [mbind result_bind and_then failure].
        { intros [= <-]. by eexists. }
        destruct (resolve_result w self (PyStr.replace "$type" "points" (style rq)))
          as [e3|pt] eqn:Hpt; cbn [mbind result_bind and_then failure]; [|discriminate].
        intros [= <-]. by eexists.
      * destruct (resolve_result w self (style rq)) as [e1|s] eqn:Hs;
          cbn [mbind result_bind and_then failure]; [|discriminate].
        intros [= <-]. by eexists.
  - destruct (resolved_events _ _ _ Hf) as (g & styles & Hg & Hs & ->).
    unfold styles_resolved_and_attached.
    rewrite attached_app, resolves_app, attached_seq_events, resolves_seq_events,
      attached_render_events, resolves_render_events, app_nil_r.
    exists styles.1.1, styles.1.2, styles.2. split; [reflexivity|].
    revert Hs. unfold request_refs, styles_result, style_refs. cbn [until_failure].
    rewrite Hg.
    destruct (PyStr.contains "$type" (style rq)); cbn [until_failure].
    + destruct (resolve_result w self (PyStr.replace "$type" "polygons" (style rq)))
        as [e1|p]; [discriminate|].
      destruct (resolve_result w self (PyStr.replace "$type" "lines" (style rq)))
        as [e2|l]; [discriminate|].
      destruct (resolve_result w self (PyStr.replace "$type" "points" (style rq)))
        as [e3|pt]; [discriminate|].
      by intros [= <-].
    + destruct (resolve_result w self (style rq)) as [e1|s]; [discriminate|].
      by intros [= <-].
Qed.

Lemma style_resolution_witness :
  styles_resolved_and_attached (offline data_files) data_prefix example_rq_by_type
    (new_calls styled_by_type (handle_requests (offline data_files) data_prefix styled_by_type).1) /\
  styles_resolved_and_attached (offline data_files) data_prefix (example_rq "map.geojson")
    (new_calls styled_once (handle_requests (offline data_files) data_prefix styled_once).1) /\
  attached (new_calls styled_by_type
              (handle_requests (offline data_files_without_lines) data_prefix styled_by_type).1)
    = [].
Proof.
  assert (Hv : validate (parameterMap (request styled_by_type)) = inr example_rq_by_type)
    by (vm_compute; reflexivity).
  assert (Hv1 : validate (parameterMap (request styled_once)) = inr (example_rq "map.geojson"))
    by (vm_compute; reflexivity).
  assert (Hf : resolution_failure (offline data_files) data_prefix example_rq_by_type = None)
    by (vm_compute; reflexivity).
  assert (Hf1 : resolution_failure (offline data_files) data_prefix (example_rq "map.geojson")
                = None)
    by (vm_compute; reflexivity).
  assert (Hf2 : resolution_failure (offline data_files_without_lines) data_prefix
                  example_rq_by_type
                = Some (ParameterError (not_found_msg "style_lines.qml")))
    by (vm_compute; reflexivity).
  pose proof (style_resolution (offline data_files) data_prefix styled_by_type
                example_rq_by_type Hv) as H.
  pose proof (style_resolution (offline data_files) data_prefix styled_once
                (example_rq "map.geojson") Hv1) as H1.
  pose proof (style_resolution (offline data_files_without_lines) data_prefix styled_by_type
                example_rq_by_type Hv) as H2.
  cbv zeta in H, H1, H2. rewrite Hf in H. rewrite Hf1 in H1. rewrite Hf2 in H2.
  exact (conj H (conj H1 (proj1 (proj2 (proj2 (proj2 H2)))))).
Defined.

(** ** Failures at the dispatcher *)

Lemma claimed_response w self st :
  claimed (request st) = true ->
  (responseComplete w self st).1 =
  match (outcome w self (parameterMap (request st))).1 with
  | inr image_data =>
      respond "image/png" image_data
        (with_calls (cleared st) (outcome w self (parameterMap (request st))).2)
  | inl e =>
      respond "text/plain" (error_body w e)
        (with_log (with_calls (cleared st) (outcome w self (parameterMap (request st))).2)
           (error_log w e))
  end.
Proof.
  intros Hc. rewrite responseComplete_run, Hc.
  destruct (outcome w self (parameterMap (request st))) as [[e|d] evs]; reflexivity.
Qed.

Lemma resolve_result_failure w self ref e :
  resolve_result w self ref = inl e ->
  exists fe, urlretrieve w ref = inl fe /\ e = not_found_on_ValueError ref fe.
Proof.
  unfold resolve_result, fetch_result, not_found_on_ValueError.
  destruct (local_candidate self ref) as [p|].
  - destruct (path_exists w p); [discriminate|].
    destruct (urlretrieve w ref) as [fe|f]; [|discriminate].
    intros [= <-]. by exists fe.
  - destruct (urlretrieve w ref) as [fe|f]; [|discriminate].
    intros [= <-]. by exists fe.
Qed.

Lemma resolution_failure_origin w self rq e :
  resolution_failure w self rq = Some e ->
  exists ref fe,
    ref ∈ geojson rq :: style_refs (style rq) /\
    urlretrieve w ref = inl fe /\ e = not_found_on_ValueError ref fe.
Proof.
  unfold resolution_failure, styles_result, style_refs.
  destruct (resolve_result w self (geojson rq)) as [e0|g] eqn:Hg;
    cbn [mbind result_bind and_then failure].
  { intros [= <-]. destruct (resolve_result_failure _ _ _ _ Hg) as (fe & Hfe & ->).
    exists (geojson rq), fe. split; [left|done]. }
  destruct (PyStr.contains "$type" (style rq)).
  - destruct (resolve_result w self (PyStr.replace "$type" "polygons" (style rq)))
      as [e1|p] eqn:Hp; cbn [mbind result_bind and_then failure].
    { intros [= <-]. destruct (resolve_result_failure _ _ _ _ Hp) as (fe & Hfe & ->).
      eexists _, fe. split; [|done]. set_solver. }
    destruct (resolve_result w self (PyStr.replace "$type" "lines" (style rq)))
      as [e2|l] eqn:Hl; cbn [mbind result_bind and_then failure].
    { intros [= <-]. destruct (resolve_result_failure _ _ _ _ Hl) as (fe & Hfe & ->).
      eexists _, fe. split; [|done]. set_solver. }
    destruct (resolve_result w self (PyStr.replace "$type" "points" (style rq)))
      as [e3|pt] eqn:Hpt; cbn [mbind result_bind and_then failure]; [|discriminate].
    intros [= <-]. destruct (resolve_result_failure _ _ _ _ Hpt) as (fe & Hfe & ->).
    eexists _, fe. split; [|done]. set_solver.
  - destruct (resolve_result w self (style rq)) as [e1|s] eqn:Hs;
      cbn [mbind result_bind and_then failure]; [|discriminate].
    intros [= <-]. destruct (resolve_result_failure _ _ _ _ Hs) as (fe & Hfe & ->).
    eexists _, fe. split; [|done]. set_solver.
Qed.

(** C7 as stated fails: a dataset that is neither a local file nor a URL
    makes the resolver raise a [ParameterError], and the client receives
    its bare message, not the marker and the detail. *)
Lemma missing_dataset_is_validation_form :
  ~ resolution_failure_surfaces unexpected_form (offline data_files) data_prefix missing_dataset.
Proof.
  intros H.
  destruct (H eq_refl
              (mkRenderRequest "missing.geojson" "style.qml" 100 100 96
                 (mkQgsRectangle (PyNum.of_Z 0) (PyNum.of_Z 0)
                    (PyNum.of_Z 10) (PyNum.of_Z 10)))
              (ParameterError (not_found_msg "missing.geojson")))
    as [_ Hbody]; [vm_compute; reflexivity | vm_compute; reflexivity |].
  vm_compute in Hbody. discriminate Hbody.
Qed.

(** C7, amended.  For a claimed request that passes validation and for
    which the resolver fails, the failure is that of the download of one
    of the references (the dataset, or a style reference); the response
    has [Content-type: text/plain]; when the download raised a
    [ValueError], the body is the bare message "The file `ref` could not
    be found locally and not be retrieved as download." (the
    validation-error form), and when it raised anything else the body is
    the marker followed by the full error detail (the unexpected-error
    form). *)
Theorem resolution_failure_response (w : World) (self : RenderGeojsonFilter) (st : State)
    (rq : RenderRequest) (e : exn) :
  claimed (request st) = true ->
  validate (parameterMap (request st)) = inr rq ->
  resolution_failure w self rq = Some e ->
  exists ref fe,
    ref ∈ geojson rq :: style_refs (style rq) /\
    urlretrieve w ref = inl fe /\
    responseHeaders (request (responseComplete w self st).1) !! "Content-type"
      = Some "text/plain" /\
    responseBody (request (responseComplete w self st).1)
      = if is_ValueError (Raised fe) then not_found_msg ref
        else unexpected_form w (Raised fe).
Proof.
  intros Hc Hv Hf.
  destruct (resolution_failure_origin _ _ _ _ Hf) as (ref & fe & Hin & Hfe & ->).
  exists ref, fe. split; [exact Hin|]. split; [exact Hfe|].
  rewrite (claimed_response _ _ _ Hc), (resolution_failure_outcome _ _ _ _ _ Hv Hf).
  split.
  - cbn. apply lookup_insert_eq.
  - unfold not_found_on_ValueError, error_body, unexpected_form.
    by destruct (is_ValueError (Raised fe)).
Qed.

Lemma resolution_failure_response_witness :
  (exists ref fe,
     ref ∈ ["missing.geojson"; "style.qml"] /\
     urlretrieve (offline data_files) ref = inl fe /\
     responseHeaders
       (request (responseComplete (offline data_files) data_prefix missing_dataset).1)
       !! "Content-type" = Some "text/plain" /\
     responseBody
       (request (responseComplete (offline data_files) data_prefix missing_dataset).1)
       = if is_ValueError (Raised fe) then not_found_msg ref
         else unexpected_form (offline data_files) (Raised fe)) /\
  (exists ref fe,
     ref ∈ ["http://tiles.invalid/map.geojson"; "style.qml"] /\
     urlretrieve (offline data_files) ref = inl fe /\
     responseHeaders
       (request (responseComplete (offline data_files) data_prefix unreachable_dataset).1)
       !! "Content-type" = Some "text/plain" /\
     responseBody
       (request (responseComplete (offline data_files) data_prefix unreachable_dataset).1)
       = if is_ValueError (Raised fe) then not_found_msg ref
         else unexpected_form (offline data_files) (Raised fe)).
Proof.
  split.
  - apply (resolution_failure_response (offline data_files) data_prefix missing_dataset
             (example_rq "missing.geojson")
             (ParameterError (not_found_msg "missing.geojson")));
      vm_compute; reflexivity.
  - apply (resolution_failure_response (offline data_files) data_prefix unreachable_dataset
             (example_rq "http://tiles.invalid/map.geojson")
             (Raised (LibError "URLError"
                        "<urlopen error [Errno -2] Name or service not known>")));
      vm_compute; reflexivity.
Defined.

(** ** Validation failures at the dispatcher *)

(** C8 as stated fails: the failure of validation is logged, by the name
    of its type. *)
Lemma validation_failure_is_logged :
  ~ validation_failure_response [] (offline []) no_prefix no_parameters.
Proof.
  intros H. destruct (H eq_refl GEOJSON_msg) as (_ & _ & Hlog); [reflexivity|].
  vm_compute in Hlog. discriminate Hlog.
Qed.

(** C8, amended.  For a claimed request that fails validation, the only
    header of the response is [Content-type: text/plain], the body is
    exactly the message of the validation error, and exactly one message
    is logged for the failure: the name of the error type,
    [ParameterError], without the message.  So it is for every exception
    that leaves [handle_requests], whether raised by the validation, by
    the resolver, by the configuration of the settings or by the engine:
    the response is plain text and the name of the error type is logged;
    for a [ParameterError] the body is its bare message and nothing else
    is logged, for any other exception the body is the marker followed by
    the full detail, and the detail is logged as a second message. *)
Theorem failure_logging (w : World) (self : RenderGeojsonFilter) (st : State) :
  validation_failure_response ["RenderGeojson.responseComplete :: ParameterError"] w self st /\
  (claimed (request st) = true ->
   forall e,
     (handle_requests w self (cleared st)).2 = inl e ->
     responseHeaders (request (responseComplete w self st).1)
       = {[ "Content-type" := "text/plain" ]} /\
     responseBody (request (responseComplete w self st).1)
       = (if is_ParameterError e then exn_str e else marker +:+ format_exc w e) /\
     message_log (responseComplete w self st).1 =
     (message_log st ++
       ("RenderGeojson.responseComplete :: " +:+ type_name e) ::
       (if is_ParameterError e then []
        else ["RenderGeojson.responseComplete ::  " +:+ format_exc w e]))%list).
Proof.
  split.
  - intros Hc msg Hv. rewrite (claimed_response _ _ _ Hc). unfold outcome. rewrite Hv.
    cbn. split; [apply insert_empty|]. by split.
  - intros Hc e He. apply handle_requests_raises in He.
    change (parameterMap (request (cleared st))) with (parameterMap (request st)) in He.
    rewrite (claimed_response _ _ _ Hc), He. cbn.
    split; [apply insert_empty|]. by split.
Qed.

Lemma failure_logging_witness :
  message_log (responseComplete (offline []) no_prefix no_parameters).1
    = ["RenderGeojson.responseComplete :: ParameterError"] /\
  message_log (responseComplete (offline []) no_prefix width_abc).1
    = ["RenderGeojson.responseComplete :: ValueError";
       "RenderGeojson.responseComplete ::  " +:+ format_exc (offline []) (int_error "abc")] /\
  (responseBody (request (responseComplete (offline data_files) data_prefix missing_dataset).1)
     = not_found_msg "missing.geojson" /\
   message_log (responseComplete (offline data_files) data_prefix missing_dataset).1
     = ["RenderGeojson.responseComplete :: ParameterError"]).
Proof.
  refine (conj _ (conj _ _)).
  - apply (proj1 (failure_logging (offline []) no_prefix no_parameters) eq_refl GEOJSON_msg).
    reflexivity.
  - apply (proj2 (failure_logging (offline []) no_prefix width_abc) eq_refl
             (int_error "abc")). reflexivity.
  - assert (Hc : claimed (request missing_dataset) = true) by (vm_compute; reflexivity).
    assert (He : (handle_requests (offline data_files) data_prefix (cleared missing_dataset)).2
                 = inl (ParameterError (not_found_msg "missing.geojson")))
      by (vm_compute; reflexivity).
    exact (proj2 (proj2 (failure_logging (offline data_files) data_prefix missing_dataset)
                    Hc _ He)).
Defined.

(** ** Claiming a request *)

Lemma append_cons c a b : String c a +:+ b = String c (a +:+ b).
Proof. reflexivity. Qed.

Lemma startswith_append p x : PyStr.startswith p (p +:+ x) = true.
Proof.
  induction p as [|c p IH]; [reflexivity|].
  rewrite append_cons. cbn [PyStr.startswith]. by rewrite Ascii.eqb_refl.
Qed.

Lemma startswith_split p s :
  PyStr.startswith p s = true -> s = p +:+ string_drop (String.length p) s.
Proof.
  revert s. induction p as [|c p IH]; intros s; [reflexivity|].
  destruct s as [|d s]; [discriminate|]. cbn [PyStr.startswith].
  destruct (Ascii.eqb_spec c d) as [->|]; [|discriminate].
  intros H. rewrite append_cons. cbn [String.length string_drop]. by rewrite <- (IH s H).
Qed.

Lemma string_drop_append p r : string_drop (String.length p) (p +:+ r) = r.
Proof. induction p as [|c p IH]; [by destruct r|exact IH]. Qed.

Lemma startswith_comparable k variant rest :
  PyStr.startswith k (variant +:+ rest) = true -> comparable k variant = true.
Proof.
  unfold comparable. revert variant.
  induction k as [|c k IH]; intros variant; [reflexivity|].
  destruct variant as [|d variant]; [intros _; apply orb_true_r|].
  rewrite append_cons. cbn [PyStr.startswith].
  rewrite (Ascii.eqb_sym d c). destruct (Ascii.eqb c d); [apply IH|discriminate].
Qed.

Lemma upper_from_skip n s : PyStr.upper_from n s = PyStr.upper_from O (string_drop n s).
Proof.
  revert n. induction s as [|b s IH]; intros [|n]; try reflexivity.
  cbn [string_drop]. rewrite <- IH. reflexivity.
Qed.

Lemma upper_from_cons b s :
  PyStr.upper_from O (String b s) =
  match PyStr.upper_key (String b s) with
  | Some (k, u) => u +:+ PyStr.upper_from (String.length k - 1) s
  | None => String b (PyStr.upper_from O s)
  end.
Proof. reflexivity. Qed.

Section table.
Variable table : list (string * string).

Lemma find_variant_none variant rest :
  List.find (fun ku : string * string => comparable ku.1 variant) table = None ->
  List.find (fun ku : string * string => PyStr.startswith ku.1 (variant +:+ rest)) table = None.
Proof.
  induction table as [|[k u] tbl IH]; [reflexivity|]. cbn [List.find fst].
  destruct (comparable k variant) eqn:Hc; [discriminate|].
  destruct (PyStr.startswith k (variant +:+ rest)) eqn:Hs; [|exact IH].
  apply startswith_comparable in Hs. congruence.
Qed.

Lemma find_variant_some variant rest u :
  List.find (fun ku : string * string => comparable ku.1 variant) table = Some (variant, u) ->
  List.find (fun ku : string * string => PyStr.startswith ku.1 (variant +:+ rest)) table
  = Some (variant, u).
Proof.
  induction table as [|[k u'] tbl IH]; [discriminate|]. cbn [List.find fst].
  destruct (comparable k variant) eqn:Hc.
  - intros [= -> ->]. by rewrite startswith_append.
  - destruct (PyStr.startswith k (variant +:+ rest)) eqn:Hs; [|exact IH].
    apply startswith_comparable in Hs. congruence.
Qed.
End table.

Lemma String_eqb_true a b : String.eqb a b = true -> a = b.
Proof. apply String.eqb_eq. Qed.

Lemma upper_variant t variant rest :
  variant_agrees t variant = true ->
  PyStr.upper_from O (variant +:+ rest) = String t (PyStr.upper_from O rest).
Proof.
  unfold variant_agrees. intros [Hne H]%andb_prop.
  destruct variant as [|b variant']; [discriminate|].
  rewrite append_cons, upper_from_cons, <- append_cons. unfold PyStr.upper_key.
  destruct (List.find _ PyStr.upper_table) as [[k u]|] eqn:Hf.
  - apply andb_prop in H as [->%String_eqb_true ->%String_eqb_true].
    rewrite (find_variant_some _ _ rest _ Hf).
    cbn [String.length]. rewrite Nat.sub_1_r. cbn [Nat.pred].
    by rewrite upper_from_skip, string_drop_append.
  - apply String_eqb_true in H as [= -> ->].
    by rewrite (find_variant_none _ _ rest Hf).
Qed.

Lemma capital_in_variants c : In (String c "") (case_variants c).
Proof. unfold case_variants. destruct (_ && _); by left. Qed.

Lemma upper_eq_ignore_case target :
  table_agrees target = true ->
  forall v, String.eqb (PyStr.upper v) target = eq_ignore_case target v.
Proof.
  unfold PyStr.upper.
  induction target as [|t target' IH]; intros Hok v.
  - cbn [table_agrees eq_ignore_case] in *.
    destruct v as [|b v']; [reflexivity|].
    rewrite upper_from_cons. unfold PyStr.upper_key.
    destruct (List.find _ PyStr.upper_table) as [[k u]|] eqn:Hf; [|reflexivity].
    apply List.find_some in Hf as [Hin _].
    rewrite forallb_forall in Hok. specialize (Hok _ Hin). cbn in Hok.
    destruct u; [discriminate|reflexivity].
  - cbn [table_agrees] in Hok.
    apply andb_prop in Hok as [[Hvar Hkeys]%andb_prop Hrest].
    specialize (IH Hrest).
    apply Bool.eq_iff_eq_true. split.
    + intros Hup%String_eqb_true.
      cbn [eq_ignore_case]. apply existsb_exists.
      destruct v as [|b v']; [discriminate|].
      rewrite upper_from_cons in Hup. unfold PyStr.upper_key in Hup.
      destruct (List.find _ PyStr.upper_table) as [[k u]|] eqn:Hf.
      * apply List.find_some in Hf as [Hin Hstart]. cbn [fst] in Hstart.
        unfold keys_agree in Hkeys. rewrite forallb_forall in Hkeys.
        specialize (Hkeys _ Hin). cbn [fst snd] in Hkeys.
        apply andb_prop in Hkeys as [Hk Himp].
        assert (Hu : PyStr.startswith u (String t target') = true)
          by (rewrite <- Hup; apply startswith_append).
        rewrite Hu in Himp. cbn [implb] in Himp.
        apply andb_prop in Himp as [->%String_eqb_true Hex].
        apply existsb_exists in Hex as (x & Hx & <-%String_eqb_true).
        exists k. split; [exact Hx|]. rewrite Hstart. cbn [andb].
        rewrite <- IH. destruct k as [|c k']; [discriminate|].
        cbn [String.length string_drop].
        cbn [String.length] in Hup. rewrite Nat.sub_1_r in Hup. cbn [Nat.pred] in Hup.
        rewrite upper_from_skip in Hup. injection Hup as <-. apply String.eqb_refl.
      * injection Hup as -> Hup. exists (String t ""). split; [apply capital_in_variants|].
        cbn [PyStr.startswith String.length string_drop]. rewrite Ascii.eqb_refl. cbn [andb].
        rewrite <- IH, Hup. apply String.eqb_refl.
    + cbn [eq_ignore_case]. intros (variant & Hin & [Hstart Heq]%andb_prop)%existsb_exists.
      rewrite forallb_forall in Hvar. specialize (Hvar _ Hin).
      rewrite (startswith_split _ _ Hstart), (upper_variant t _ _ Hvar).
      rewrite <- IH in Heq. apply String_eqb_true in Heq. rewrite Heq.
      apply String.eqb_refl.
Qed.

Lemma table_agrees_RENDERGEOJSON : table_agrees "RENDERGEOJSON" = true.
Proof. vm_compute. reflexivity. Qed.

Lemma claimed_service r : claimed r = service_is_rendergeojson (parameterMap r).
Proof.
  unfold claimed, service_is_rendergeojson.
  destruct (parameterMap r !! "SERVICE") as [v|]; [|reflexivity].
  apply upper_eq_ignore_case, table_agrees_RENDERGEOJSON.
Qed.

(** C9.  When [SERVICE] is absent or differs from [RENDERGEOJSON] even up
    to case, [responseComplete] does nothing: request, log and calls are
    as before, whatever the other parameters.  (Up to case: each letter
    is written as the capital or as a small letter of which it is the
    capital; besides [s], the long s of Unicode is one for [S].)  When the request is
    claimed, the pipeline runs on the request with its response cleared,
    and the response at the end is exactly one header, [Content-type],
    and one body, none of which comes from the response that was there
    before: the image with [image/png], or the text of the failure with
    [text/plain]. *)
Theorem dispatch (w : World) (self : RenderGeojsonFilter) (st : State) :
  if service_is_rendergeojson (parameterMap (request st)) then
    responseComplete w self st
      = try_catch (handle_requests w self) (on_exception w) (cleared st) /\
    request (responseComplete w self st).1
      = mkRequest (parameterMap (request st))
          {[ "Content-type" := (response_of w self (parameterMap (request st))).1 ]}
          (response_of w self (parameterMap (request st))).2 /\
    ((handle_requests w self (cleared st)).2 = inr tt <->
     (response_of w self (parameterMap (request st))).1 = "image/png")
  else responseComplete w self st = (st, inr tt).
Proof.
  rewrite <- claimed_service.
  destruct (claimed (request st)) eqn:Hc.
  - split; [|split].
    + unfold responseComplete. by rewrite Hc.
    + rewrite (claimed_response _ _ _ Hc). unfold response_of.
      destruct (outcome w self (parameterMap (request st))) as [[e|d] evs]; cbn;
        by rewrite insert_empty.
    + rewrite handle_requests_run. unfold response_of, outcome.
      change (parameterMap (request (cleared st))) with (parameterMap (request st)).
      destruct (validate (parameterMap (request st))) as [e|rq]; [done|].
      by destruct (pipeline_result w self rq).
  - rewrite responseComplete_run. by rewrite Hc.
Qed.

(** ** The model on concrete inputs *)

Example upper_mixed_case : PyStr.upper "RenderGeoJson" = "RENDERGEOJSON".
Proof. reflexivity. Qed.

Example service_names :
  eq_ignore_case "RENDERGEOJSON" "RenderGeoJson" = true /\
  eq_ignore_case "RENDERGEOJSON" ("rendergeoj" +:+ long_s +:+ "on") = true /\
  PyStr.upper ("rendergeoj" +:+ long_s +:+ "on") = "RENDERGEOJSON" /\
  eq_ignore_case "RENDERGEOJSON" "RENDERGEOJSONS" = false /\
  eq_ignore_case "RENDERGEOJSON" "WMS" = false.
Proof. vm_compute. repeat split. Qed.

Example split_three : PyStr.split "," "1,2,3" = ["1"; "2"; "3"].
Proof. reflexivity. Qed.

Example split_empty_components : PyStr.split "," ",1," = [""; "1"; ""].
Proof. reflexivity. Qed.

Example replace_every_occurrence :
  PyStr.replace "$type" "lines" "$type/style_$type.qml" = "lines/style_lines.qml".
Proof. reflexivity. Qed.

Example join_relative : os_path_join "/data" "style.qml" = "/data/style.qml".
Proof. reflexivity. Qed.

Example join_after_slash : os_path_join "/data/" "style.qml" = "/data/style.qml".
Proof. reflexivity. Qed.

Example int_of_strings :
  PyNum.py_int "10" = Some 10 /\ PyNum.py_int " -1_000 " = Some (-1000) /\
  PyNum.py_int "abc" = None /\ PyNum.py_int "1.5" = None /\ PyNum.py_int "" = None /\
  PyNum.py_int (PyStr.utf8 1633 +:+ PyStr.utf8 1634) = Some 12 /\
  PyNum.py_int (PyStr.utf8 8195 +:+ "7") = Some 7 /\
  PyNum.py_int (String "028" "7") = None.
Proof. vm_compute. repeat split. Qed.

Example float_of_strings :
  PyNum.py_float "1" = Some (PyNum.of_Z 1) /\
  PyNum.py_float "1.0" = Some (PyNum.of_Z 1) /\
  PyNum.py_float "-2.5e1" = Some (PyNum.of_Z (-25)) /\
  PyNum.py_float ".5" = Some (S754_finite false 4503599627370496 (-53)) /\
  PyNum.py_float "0.1" = Some (S754_finite false 7205759403792794 (-56)) /\
  PyNum.py_float "-inf" = Some (S754_infinity true) /\
  PyNum.py_float "1e400" = Some (S754_infinity false) /\
  PyNum.py_float "1e-400" = Some (S754_zero false) /\
  PyNum.py_float (PyStr.utf8 1633) = Some (PyNum.of_Z 1) /\
  PyNum.py_float (String "028" "1") = None /\
  PyNum.py_float "x" = None /\ PyNum.py_float "" = None /\ PyNum.py_float "1e" = None.
Proof. vm_compute. repeat split. Qed.

Example int_error_of_abc :
  int_error "abc" = ValueError "invalid literal for int() with base 10: 'abc'".
Proof. reflexivity. Qed.

(** A request that is rendered: the dataset and the style are found
    under the prefix, no download is attempted, and the image is the
    response. *)
Example rendered_request :
  responseComplete (offline data_files) data_prefix styled_once =
  (mkState
     (mkRequest (parameterMap (request styled_once)) {[ "Content-type" := "image/png" ]} "PNG")
     []
     [EvResolve "map.geojson"; EvExists "/data/map.geojson";
      EvResolve "style.qml"; EvExists "/data/style.qml";
      EvLoadStyle (new_layer "/data/map.geojson|geometrytype=Polygon" "polygons" "ogr")
        "/data/style.qml";
      EvLoadStyle (new_layer "/data/map.geojson|geometrytype=Line" "lines" "ogr")
        "/data/style.qml";
      EvLoadStyle (new_layer "/data/map.geojson|geometrytype=Point" "points" "ogr")
        "/data/style.qml";
      EvRender
        (map_settings (example_rq "map.geojson") "/data/map.geojson"
           ("/data/style.qml", "/data/style.qml", "/data/style.qml"))],
   inr tt).
Proof. vm_compute. reflexivity. Qed.

(** A request for another service passes through. *)
Example other_service :
  let st := mkState (mkRequest {[ "SERVICE" := "WMS" ]} {[ "Content-type" := "text/xml" ]} "<x/>")
              ["earlier"] [] in
  responseComplete (offline []) no_prefix st = (st, inr tt).
Proof. vm_compute. reflexivity. Qed.

(** A request with no parameter but [SERVICE]: the first check fails. *)
Example first_check_fails :
  responseBody (request (responseComplete (offline []) no_prefix no_parameters).1) = GEOJSON_msg.
Proof. vm_compute. reflexivity. Qed.

Example dpi_examples :
  read_DPI ∅ = inr 96 /\ read_DPI {[ "DPI" := "10" ]} = inr 10 /\
  read_DPI {[ "DPI" := "x" ]} = inl (int_error "x").
Proof. vm_compute. repeat split. Qed.

Example width_examples :
  read_WIDTH ∅ = inl (ParameterError WIDTH_msg) /\
  read_WIDTH {[ "WIDTH" := "abc" ]} = inl (int_error "abc") /\
  read_WIDTH {[ "WIDTH" := "640" ]} = inr 640.
Proof. vm_compute. repeat split. Qed.

Example bbox_examples :
  read_BBOX ∅ = inl (ParameterError BBOX_msg) /\
  read_BBOX {[ "BBOX" := "1,2,3" ]} = inl (ParameterError BBOX_msg) /\
  read_BBOX {[ "BBOX" := "1,2,3,x" ]} = inl (ParameterError BBOX_msg) /\
  read_BBOX {[ "BBOX" := "1,2,3,4,5" ]} = inl (ParameterError BBOX_msg) /\
  read_BBOX {[ "BBOX" := "1,2,3,4" ]} = inr rect_1_2_3_4.
Proof. vm_compute. repeat split. Qed.

(** * Further properties of the filter *)

(** ** What validation accepts *)

(** X1.  Validation succeeds with a request exactly when GEOJSON and
    STYLE are present, WIDTH and HEIGHT are present and parse as
    integers, DPI is absent (then 96) or parses as an integer, and the
    BBOX check succeeds; the fields of the request are these values.  No
    range is checked: zero and negative sizes are accepted. *)
Theorem validate_accepts (params : params_t) (rq : RenderRequest) :
  validate params = inr rq <->
  params !! "GEOJSON" = Some (geojson rq) /\
  params !! "STYLE" = Some (style rq) /\
  (exists v, params !! "WIDTH" = Some v /\ PyNum.py_int v = Some (width rq)) /\
  (exists v, params !! "HEIGHT" = Some v /\ PyNum.py_int v = Some (height rq)) /\
  match params !! "DPI" with
  | None => dpi rq = 96
  | Some v => PyNum.py_int v = Some (dpi rq)
  end /\
  read_BBOX params = inr (bbox rq).
Proof.
  unfold validate.
  rewrite read_GEOJSON_cases, read_STYLE_cases, read_WIDTH_cases, read_HEIGHT_cases,
    read_DPI_cases.
  split.
  - intros H.
    destruct (params !! "GEOJSON") as [g'|]; [|discriminate H].
    destruct (params !! "STYLE") as [s'|]; [|discriminate H].
    destruct (params !! "WIDTH") as [vw|]; [|discriminate H].
    destruct (PyNum.py_int vw) as [wd'|] eqn:Ew; [|discriminate H].
    destruct (params !! "HEIGHT") as [vh|]; [|discriminate H].
    destruct (PyNum.py_int vh) as [ht'|] eqn:Eh; [|discriminate H].
    cbn [mbind result_bind and_then] in H.
    destruct (params !! "DPI") as [vd|].
    + destruct (PyNum.py_int vd) as [d'|] eqn:Ed; [|discriminate H].
      cbn [mbind result_bind and_then] in H.
      destruct (read_BBOX params) as [e|b']; [discriminate H|].
      cbn [mbind result_bind and_then mret result_ret] in H.
      injection H as <-. cbn. repeat split; eauto.
    + cbn [mbind result_bind and_then] in H.
      destruct (read_BBOX params) as [e|b']; [discriminate H|].
      cbn [mbind result_bind and_then mret result_ret] in H.
      injection H as <-. cbn. repeat split; eauto.
  - intros (Hg & Hs & (vw & Hvw & Hw) & (vh & Hvh & Hh) & Hd & Hb).
    rewrite Hg, Hs, Hvw, Hw, Hvh, Hh, Hb. cbn [mbind result_bind and_then].
    destruct (params !! "DPI") as [vd|].
    + rewrite Hd. by destruct rq.
    + rewrite <- Hd. by destruct rq.
Qed.

(** X2.  The BBOX check succeeds exactly when BBOX is present, splits at
    its commas into exactly four components, and each of them is
    accepted by [float]; the rectangle is built from the four values in
    the order given.  Nothing else is checked: the minima need not be
    below the maxima, and infinities and NaN are accepted. *)
Theorem bbox_accepts (params : params_t) (r : QgsRectangle) :
  read_BBOX params = inr r <->
  exists v a b c d,
    params !! "BBOX" = Some v /\ PyStr.split "," v = [a; b; c; d] /\
    PyNum.py_float a = Some (rect_xmin r) /\ PyNum.py_float b = Some (rect_ymin r) /\
    PyNum.py_float c = Some (rect_xmax r) /\ PyNum.py_float d = Some (rect_ymax r).
Proof.
  rewrite read_BBOX_cases. split.
  - intros H.
    destruct (params !! "BBOX") as [v|]; [|discriminate H].
    destruct (PyStr.split "," v) as [|a [|b [|c [|d [|x l]]]]] eqn:Hs; try discriminate H.
    destruct (PyNum.py_float a) eqn:Ea; [|discriminate H].
    destruct (PyNum.py_float b) eqn:Eb; [|discriminate H].
    destruct (PyNum.py_float c) eqn:Ec; [|discriminate H].
    destruct (PyNum.py_float d) eqn:Ed; [|discriminate H].
    injection H as <-. exists v, a, b, c, d. cbn. by rewrite Hs.
  - intros (v & a & b & c & d & -> & -> & -> & -> & -> & ->). by destruct r.
Qed.

Lemma bbox_single_error_aux (params : params_t) (e : exn) :
  read_BBOX params = inl e -> e = ParameterError BBOX_msg /\ bbox_malformed params.
Proof.
  rewrite read_BBOX_cases. unfold bbox_malformed.
  destruct (params !! "BBOX") as [v|]; [|intros [= <-]; split; [reflexivity|exact I]].
  destruct (PyStr.split "," v) as [|a [|b [|c [|d [|x l]]]]] eqn:Hs;
    try (intros [= <-]; split; [reflexivity | left; cbn; lia]).
  destruct (PyNum.py_float a) eqn:Ea;
    [|intros [= <-]; split; [reflexivity | right; exists a; split; [set_solver|done]]].
  destruct (PyNum.py_float b) eqn:Eb;
    [|intros [= <-]; split; [reflexivity | right; exists b; split; [set_solver|done]]].
  destruct (PyNum.py_float c) eqn:Ec;
    [|intros [= <-]; split; [reflexivity | right; exists c; split; [set_solver|done]]].
  destruct (PyNum.py_float d) eqn:Ed;
    [discriminate|intros [= <-]; split; [reflexivity | right; exists d; split; [set_solver|done]]].
Qed.

(** X3.  The BBOX check raises nothing but the error with the message
    [BBOX_msg], and it raises it only when BBOX is absent, has not
    exactly four components or has a component that is no float. *)
Theorem bbox_single_error (params : params_t) (e : exn) :
  read_BBOX params = inl e -> e = ParameterError BBOX_msg /\ bbox_malformed params.
Proof. apply bbox_single_error_aux. Qed.

Lemma bbox_single_error_witness :
  ParameterError BBOX_msg = ParameterError BBOX_msg /\ bbox_malformed {[ "BBOX" := "1,,3,4" ]}.
Proof.
  apply (bbox_single_error {[ "BBOX" := "1,,3,4" ]} (ParameterError BBOX_msg)).
  vm_compute. reflexivity.
Defined.

(** X4.  A validation error is one of five: GEOJSON, STYLE, WIDTH or
    HEIGHT is absent, with the message of that parameter, or BBOX is
    malformed.  The message [DPI_msg] is never produced, and a WIDTH,
    HEIGHT or DPI that is present never gives a validation error. *)
Theorem validation_errors (params : params_t) (msg : string) :
  validate params = inl (ParameterError msg) ->
  msg <> DPI_msg /\
  ((msg = GEOJSON_msg /\ params !! "GEOJSON" = None) \/
   (msg = STYLE_msg /\ params !! "STYLE" = None) \/
   (msg = WIDTH_msg /\ params !! "WIDTH" = None) \/
   (msg = HEIGHT_msg /\ params !! "HEIGHT" = None) \/
   (msg = BBOX_msg /\ bbox_malformed params)).
Proof.
  unfold validate.
  rewrite read_GEOJSON_cases, read_STYLE_cases, read_WIDTH_cases, read_HEIGHT_cases,
    read_DPI_cases.
  intros H.
  destruct (params !! "GEOJSON") as [g|]; [|injection H as <-; split; [discriminate|tauto]].
  destruct (params !! "STYLE") as [s|]; [|injection H as <-; split; [discriminate|tauto]].
  destruct (params !! "WIDTH") as [vw|]; [|injection H as <-; split; [discriminate|tauto]].
  destruct (PyNum.py_int vw); [|discriminate H].
  destruct (params !! "HEIGHT") as [vh|]; [|injection H as <-; split; [discriminate|tauto]].
  destruct (PyNum.py_int vh); [|discriminate H].
  cbn [mbind result_bind and_then] in H.
  assert (Hb : exists e, read_BBOX params = inl e /\ e = ParameterError msg).
  { destruct (params !! "DPI") as [vd|].
    - destruct (PyNum.py_int vd); [|discriminate H].
      cbn [mbind result_bind and_then] in H.
      destruct (read_BBOX params) as [e|b]; [|discriminate H].
      injection H as <-. by eexists.
    - cbn [mbind result_bind and_then] in H.
      destruct (read_BBOX params) as [e|b]; [|discriminate H].
      injection H as <-. by eexists. }
  destruct Hb as (e & Hb & ->).
  destruct (bbox_single_error_aux params _ Hb) as [[= ->] Hbad].
  split; [discriminate|]. tauto.
Qed.

Lemma validation_errors_witness :
  GEOJSON_msg <> DPI_msg /\ bbox_malformed {[ "GEOJSON" := "a"; "STYLE" := "b";
                                             "WIDTH" := "1"; "HEIGHT" := "1" ]}.
Proof.
  split.
  - exact (proj1 (validation_errors ∅ GEOJSON_msg eq_refl)).
  - assert (Hv : validate {[ "GEOJSON" := "a"; "STYLE" := "b"; "WIDTH" := "1"; "HEIGHT" := "1" ]}
                   = inl (ParameterError BBOX_msg)) by (vm_compute; reflexivity).
    destruct (proj2 (validation_errors _ _ Hv))
      as [[_ H]|[[_ H]|[[_ H]|[[_ H]|[_ H]]]]]; try (vm_compute in H; discriminate H).
    exact H.
Defined.

(** X5.  Validation reads the six parameters GEOJSON, STYLE, WIDTH,
    HEIGHT, DPI and BBOX and nothing else: two parameter maps that agree
    on them are validated alike, whatever else they hold. *)
Theorem validate_ignores_other_parameters (p p' : params_t) :
  (forall k, k ∈ validated_keys -> p !! k = p' !! k) -> validate p = validate p'.
Proof.
  intros H. unfold validate.
  rewrite !read_GEOJSON_cases, !read_STYLE_cases, !read_WIDTH_cases, !read_HEIGHT_cases,
    !read_DPI_cases, (read_BBOX_own_parameter p p');
    [|apply H; unfold validated_keys; set_solver].
  rewrite (H "GEOJSON"), (H "STYLE"), (H "WIDTH"), (H "HEIGHT"), (H "DPI");
    unfold validated_keys; [reflexivity|set_solver..].
Qed.

Lemma validate_ignores_other_parameters_witness :
  validate bbox_four = validate (<["SERVICE" := "RENDERGEOJSON"]> (<["FORMAT" := "png"]> bbox_four)).
Proof.
  apply validate_ignores_other_parameters.
  intros k Hk. unfold validated_keys in Hk.
  rewrite !lookup_insert_ne; [reflexivity|..];
    intros <-; rewrite !elem_of_cons, elem_of_nil in Hk;
    destruct Hk as [Hk|[Hk|[Hk|[Hk|[Hk|[Hk|[]]]]]]]; discriminate Hk.
Defined.

(** X6.  [handle_requests] writes nothing to the log, keeps the
    parameters and the calls made before, and touches the response only
    when it returns: when it raises, the request is as it was; when it
    returns, the header [Content-type: image/png] is set and the image
    data is appended to the body that was there (clearing is left to the
    caller). *)
Theorem handle_requests_effect (w : World) (self : RenderGeojsonFilter) (st : State) :
  message_log (handle_requests w self st).1 = message_log st /\
  calls st `prefix_of` calls (handle_requests w self st).1 /\
  match (handle_requests w self st).2 with
  | inl _ => request (handle_requests w self st).1 = request st
  | inr _ =>
      exists image_data,
        request (handle_requests w self st).1 =
        mkRequest (parameterMap (request st))
          (<["Content-type" := "image/png"]> (responseHeaders (request st)))
          (responseBody (request st) +:+ image_data)
  end.
Proof.
  rewrite handle_requests_run.
  destruct (validate (parameterMap (request st))) as [e|rq]; cbn [fst snd].
  { split; [reflexivity|]. split; [reflexivity|reflexivity]. }
  destruct (pipeline_result w self rq) as [e|image_data]; cbn [fst snd].
  - split; [reflexivity|]. split; [by apply prefix_app_r|reflexivity].
  - split; [reflexivity|]. split; [by apply prefix_app_r|]. by exists image_data.
Qed.

(** X7.  The rendering engine is invoked exactly once, as the last call
    of the request, when validation passes, every reference resolves and
    the map settings are accepted (an output size that does not fit is
    refused before the engine is built); it is invoked with the settings
    made of the validated request and the resolved files.  When the
    settings are refused, that exception leaves [handle_requests] and the
    engine is not invoked; when a resolution fails it is not invoked; and
    when validation fails no call at all is made. *)
Theorem renderer_runs_last (w : World) (self : RenderGeojsonFilter) (st : State) :
  match validate (parameterMap (request st)) with
  | inl _ => new_calls st (handle_requests w self st).1 = []
  | inr rq =>
      match resolve_result w self (geojson rq), styles_result w self (style rq) with
      | inr g, inr styles =>
          match configure w (map_settings rq g styles) with
          | None =>
              exists pre,
                new_calls st (handle_requests w self st).1
                = (pre ++ [EvRender (map_settings rq g styles)])%list /\
                renders pre = []
          | Some e =>
              (handle_requests w self st).2 = inl (Raised e) /\
              renders (new_calls st (handle_requests w self st).1) = []
          end
      | _, _ => renders (new_calls st (handle_requests w self st).1) = []
      end
  end.
Proof.
  destruct (validate (parameterMap (request st))) as [e|rq] eqn:Hv.
  { rewrite handle_requests_run, Hv. apply new_calls_refl. }
  rewrite (handle_requests_calls _ _ _ _ Hv), pipeline_events_seq.
  destruct (resolve_result w self (geojson rq)) as [e|g] eqn:Hg.
  { by rewrite app_nil_r, renders_seq_events. }
  destruct (styles_result w self (style rq)) as [e|styles] eqn:Hs.
  { by rewrite app_nil_r, renders_seq_events. }
  unfold render_events.
  destruct (configure w (map_settings rq g styles)) as [e|] eqn:Hc.
  - split.
    + rewrite handle_requests_run, Hv. unfold pipeline_result, render_png.
      rewrite Hg, Hs. cbn [mbind result_bind and_then]. by rewrite Hc.
    + by rewrite renders_app, renders_seq_events.
  - exists (resolve_seq_events w self (request_refs rq) ++ load_events g styles)%list.
    split; [by rewrite <- app_assoc|].
    by rewrite renders_app, renders_seq_events.
Qed.

Lemma renders_pipeline_events w self rq settings :
  settings ∈ renders (pipeline_events w self rq) ->
  exists g styles,
    resolve_result w self (geojson rq) = inr g /\
    styles_result w self (style rq) = inr styles /\
    settings = map_settings rq g styles.
Proof.
  rewrite pipeline_events_seq, renders_app, renders_seq_events. cbn [app].
  destruct (resolve_result w self (geojson rq)) as [e|g]; [by rewrite elem_of_nil|].
  destruct (styles_result w self (style rq)) as [e|styles]; [by rewrite elem_of_nil|].
  unfold render_events.
  destruct (configure w (map_settings rq g styles)); cbn; [by rewrite elem_of_nil|].
  rewrite list_elem_of_singleton. intros ->. by exists g, styles.
Qed.

(** X8.  The map settings handed to the rendering engine carry the
    validated width and height as output size, the validated DPI and the
    validated extent, and three layers in the order polygons, lines,
    points, all of the provider [ogr] and all reading the one resolved
    dataset file, each through its geometry-type filter. *)
Theorem rendered_settings (w : World) (self : RenderGeojsonFilter) (st : State)
    (rq : RenderRequest) (settings : QgsMapSettings) :
  validate (parameterMap (request st)) = inr rq ->
  settings ∈ renders (new_calls st (handle_requests w self st).1) ->
  outputSize settings = (width rq, height rq) /\
  outputDpi settings = dpi rq /\
  extent settings = bbox rq /\
  exists g,
    resolve_result w self (geojson rq) = inr g /\
    (fun ly => (layer_source ly, layer_name ly, layer_provider ly)) <$> layers settings
    = [(g +:+ "|geometrytype=Polygon", "polygons", "ogr");
       (g +:+ "|geometrytype=Line", "lines", "ogr");
       (g +:+ "|geometrytype=Point", "points", "ogr")].
Proof.
  intros Hv Hin. rewrite (handle_requests_calls _ _ _ _ Hv) in Hin.
  destruct (renders_pipeline_events _ _ _ _ Hin) as (g & [[p l] pt] & Hg & _ & ->).
  repeat split. by exists g.
Qed.

Lemma rendered_settings_witness :
  outputSize (map_settings (example_rq "map.geojson") "/data/map.geojson"
                ("/data/style.qml", "/data/style.qml", "/data/style.qml")) = (100, 100).
Proof.
  apply (rendered_settings (offline data_files) data_prefix styled_once
           (example_rq "map.geojson")).
  - vm_compute. reflexivity.
  - vm_compute. apply list_elem_of_here.
Defined.

(** X9.  The references handed to the resolver by a validated request
    are the dataset and then the style references, in that order, up to
    and including the first whose resolution fails: after a failed
    resolution no further reference is looked up or downloaded. *)
Theorem resolver_calls_stop_at_failure (w : World) (self : RenderGeojsonFilter) (st : State)
    (rq : RenderRequest) :
  validate (parameterMap (request st)) = inr rq ->
  resolves (new_calls st (handle_requests w self st).1)
  = until_failure w self (request_refs rq).
Proof.
  intros Hv. rewrite (handle_requests_calls _ _ _ _ Hv), pipeline_events_seq.
  rewrite resolves_app, resolves_seq_events.
  destruct (resolve_result w self (geojson rq)), (styles_result w self (style rq));
    rewrite ?resolves_render_events; cbn [resolves omap]; by rewrite app_nil_r.
Qed.

Lemma resolver_calls_stop_at_failure_witness :
  resolves (new_calls styled_by_type
              (handle_requests (offline ["/data/map.geojson"; "/data/style_polygons.qml"])
                 data_prefix styled_by_type).1)
  = ["map.geojson"; "style_polygons.qml"; "style_lines.qml"].
Proof.
  rewrite (resolver_calls_stop_at_failure
             (offline ["/data/map.geojson"; "/data/style_polygons.qml"])
             data_prefix styled_by_type example_rq_by_type);
    vm_compute; reflexivity.
Defined.

(** X10.  The downloads of a validated request are, in order, those of
    the references handed to the resolver that are not found under the
    prefix, one download each: at most four per request, and none when
    every reference is found locally. *)
Theorem downloads_of_a_request (w : World) (self : RenderGeojsonFilter) (st : State)
    (rq : RenderRequest) :
  validate (parameterMap (request st)) = inr rq ->
  fetches (new_calls st (handle_requests w self st).1)
  = List.filter (fun r => negb (found_locally w self r)) (until_failure w self (request_refs rq)) /\
  (length (fetches (new_calls st (handle_requests w self st).1)) <= 4)%nat /\
  (Forall (fun r => found_locally w self r = true) (request_refs rq) ->
   fetches (new_calls st (handle_requests w self st).1) = []).
Proof.
  intros Hv. rewrite (handle_requests_calls _ _ _ _ Hv), pipeline_events_seq.
  rewrite fetches_app, fetches_seq_events.
  assert (Hr : fetches
                 match resolve_result w self (geojson rq), styles_result w self (style rq) with
                 | inr g, inr styles => render_events w rq g styles
                 | _, _ => []
                 end = []).
  { destruct (resolve_result w self (geojson rq)), (styles_result w self (style rq));
      rewrite ?fetches_render_events; reflexivity. }
  rewrite Hr, app_nil_r. split; [reflexivity|]. split.
  - etrans; [apply List.filter_length_le|].
    etrans; [apply until_failure_length|].
    unfold request_refs. cbn [length]. pose proof (style_refs_length (style rq)). lia.
  - generalize (request_refs rq). intros refs Hall.
    induction Hall as [|r rest Hr' _ IH]; [reflexivity|].
    cbn [until_failure List.filter]. rewrite Hr'. cbn [negb].
    destruct (resolve_result w self r); [reflexivity|exact IH].
Qed.

Lemma downloads_of_a_request_witness :
  fetches (new_calls styled_by_type
             (handle_requests (offline ["/data/map.geojson"; "/data/style_polygons.qml"])
                data_prefix styled_by_type).1)
  = ["style_lines.qml"].
Proof.
  assert (Hv : validate (parameterMap (request styled_by_type)) = inr example_rq_by_type)
    by (vm_compute; reflexivity).
  rewrite (proj1 (downloads_of_a_request
                    (offline ["/data/map.geojson"; "/data/style_polygons.qml"])
                    data_prefix styled_by_type example_rq_by_type Hv)).
  vm_compute. reflexivity.
Defined.

(** X11.  When the environment variable [QGIS_RENDERGEOJSON_PREFIX] is
    unset or empty, the filter built from the environment never looks at
    the file system: every resolution is one download of the reference
    itself. *)
Theorem unset_prefix_always_downloads (w : World) (environ : gmap string string)
    (url : string) (st : State) :
  environ !! "QGIS_RENDERGEOJSON_PREFIX" = None \/
  environ !! "QGIS_RENDERGEOJSON_PREFIX" = Some "" ->
  _resolve_url w (__init__ environ) url st
  = (with_calls st [EvResolve url; EvFetch url], fetch_result w url).
Proof.
  intros H. rewrite _resolve_url_run.
  unfold resolve_events, resolve_result, local_candidate, __init__. cbn [prefix_path].
  by destruct H as [-> | ->].
Qed.

Lemma unset_prefix_always_downloads_witness :
  _resolve_url (offline ["map.geojson"; "/map.geojson"])
    (__init__ {[ "QGIS_RENDERGEOJSON_PREFIX" := "" ]}) "map.geojson" (request_with [])
  = (with_calls (request_with []) [EvResolve "map.geojson"; EvFetch "map.geojson"],
     fetch_result (offline ["map.geojson"; "/map.geojson"]) "map.geojson").
Proof.
  apply unset_prefix_always_downloads. right. reflexivity.
Defined.

(** ** The dispatcher *)

(** X12.  [responseComplete] never raises, whatever the world does: a
    failure of validation, of a download or of the rendering engine ends
    in a response.  It keeps the parameters of the request, and the log
    and the calls only grow. *)
Theorem responseComplete_returns (w : World) (self : RenderGeojsonFilter) (st : State) :
  (responseComplete w self st).2 = inr tt /\
  parameterMap (request (responseComplete w self st).1) = parameterMap (request st) /\
  message_log st `prefix_of` message_log (responseComplete w self st).1 /\
  calls st `prefix_of` calls (responseComplete w self st).1.
Proof.
  rewrite responseComplete_run.
  destruct (claimed (request st)); [|by repeat split].
  destruct (outcome w self (parameterMap (request st))) as [[e|image_data] evs]; cbn.
  - repeat split; by apply prefix_app_r.
  - repeat split; [reflexivity|by apply prefix_app_r].
Qed.

(** X13.  The response to a claimed request that is rendered: the one
    header [Content-type: image/png], a body that is exactly the image
    data the engine returned for the one rendering of the request, and
    nothing added to the log. *)
Theorem rendered_response (w : World) (self : RenderGeojsonFilter) (st : State) :
  claimed (request st) = true ->
  (handle_requests w self (cleared st)).2 = inr tt ->
  exists settings image_data,
    renders (new_calls st (responseComplete w self st).1) = [settings] /\
    render_png w settings = inr image_data /\
    request (responseComplete w self st).1
    = mkRequest (parameterMap (request st)) {[ "Content-type" := "image/png" ]} image_data /\
    message_log (responseComplete w self st).1 = message_log st.
Proof.
  intros Hc Hok. rewrite handle_requests_run in Hok.
  change (parameterMap (request (cleared st))) with (parameterMap (request st)) in Hok.
  rewrite (claimed_response _ _ _ Hc). unfold outcome.
  destruct (validate (parameterMap (request st))) as [e|rq]; [discriminate Hok|].
  destruct (pipeline_result w self rq) as [e|image_data] eqn:Hp; [discriminate Hok|].
  cbn [fst snd]. unfold pipeline_result in Hp.
  change (new_calls st (respond "image/png" image_data
                          (with_calls (cleared st) (pipeline_events w self rq))))
    with (new_calls (cleared st) (respond "image/png" image_data
                          (with_calls (cleared st) (pipeline_events w self rq)))).
  rewrite new_calls_respond, pipeline_events_seq, renders_app, renders_seq_events.
  destruct (resolve_result w self (geojson rq)) as [e|g]; [discriminate Hp|].
  cbn [mbind result_bind and_then] in Hp |- *.
  destruct (styles_result w self (style rq)) as [e|styles]; [discriminate Hp|].
  cbn [mbind result_bind and_then] in Hp |- *.
  destruct (render_png w (map_settings rq g styles)) as [e|d] eqn:Hr; [discriminate Hp|].
  injection Hp as ->.
  assert (Hcfg : configure w (map_settings rq g styles) = None).
  { unfold render_png in Hr. by destruct (configure w (map_settings rq g styles)). }
  unfold render_events. rewrite Hcfg.
  exists (map_settings rq g styles), image_data.
  split; [reflexivity|]. split; [exact Hr|]. split; [|reflexivity].
  cbn. by rewrite insert_empty.
Qed.

Lemma rendered_response_witness :
  exists settings image_data,
    renders (new_calls styled_once
               (responseComplete (offline data_files) data_prefix styled_once).1) = [settings] /\
    render_png (offline data_files) settings = inr image_data /\
    request (responseComplete (offline data_files) data_prefix styled_once).1
    = mkRequest (parameterMap (request styled_once)) {[ "Content-type" := "image/png" ]}
        image_data /\
    message_log (responseComplete (offline data_files) data_prefix styled_once).1
    = message_log styled_once.
Proof.
  apply (rendered_response (offline data_files) data_prefix styled_once);
    vm_compute; reflexivity.
Defined.

(** X14.  When a claimed request passes validation, every reference
    resolves and the rendering raises (the settings are refused or the
    engine fails), the client receives the marker followed by the
    traceback as plain text, and the name of the exception class and the
    traceback are logged. *)
Theorem engine_failure_response (w : World) (self : RenderGeojsonFilter) (st : State)
    (rq : RenderRequest) (g : string) (styles : string * string * string) (e : lib_exn) :
  claimed (request st) = true ->
  validate (parameterMap (request st)) = inr rq ->
  resolve_result w self (geojson rq) = inr g ->
  styles_result w self (style rq) = inr styles ->
  render_png w (map_settings rq g styles) = inl e ->
  request (responseComplete w self st).1
  = mkRequest (parameterMap (request st)) {[ "Content-type" := "text/plain" ]}
      (marker +:+ format_exc w (Raised e)) /\
  message_log (responseComplete w self st).1
  = (message_log st ++
     ["RenderGeojson.responseComplete :: " +:+ type_name (Raised e);
      "RenderGeojson.responseComplete ::  " +:+ format_exc w (Raised e)])%list.
Proof.
  intros Hc Hv Hg Hs Hr. rewrite (claimed_response _ _ _ Hc).
  unfold outcome, pipeline_result. rewrite Hv, Hg.
  cbn [mbind result_bind and_then]. rewrite Hs.
  cbn [mbind result_bind and_then]. rewrite Hr.
  cbn. by rewrite insert_empty.
Qed.

Lemma engine_failure_response_witness :
  responseBody
    (request (responseComplete (broken_engine data_files) data_prefix styled_once).1)
  = marker +:+ format_exc (broken_engine data_files)
                 (Raised (LibError "RuntimeError" "render job failed")).
Proof.
  destruct (engine_failure_response (broken_engine data_files) data_prefix styled_once
              (example_rq "map.geojson") "/data/map.geojson"
              ("/data/style.qml", "/data/style.qml", "/data/style.qml")
              (LibError "RuntimeError" "render job failed")) as [H _].
  - vm_compute. reflexivity.
  - vm_compute. reflexivity.
  - vm_compute. reflexivity.
  - vm_compute. reflexivity.
  - vm_compute. reflexivity.
  - rewrite H. reflexivity.
Defined.

(** ** References *)

Lemma contains_startswith p s : PyStr.startswith p s = true -> PyStr.contains p s = true.
Proof. destruct s; cbn [PyStr.contains]; by intros ->. Qed.

Lemma contains_append p a x : PyStr.contains p x = true -> PyStr.contains p (a +:+ x) = true.
Proof.
  intros H. induction a as [|c a IH]; [exact H|].
  rewrite append_cons. cbn [PyStr.contains]. rewrite IH. apply orb_true_r.
Qed.

Lemma not_found_msg_contains ref : PyStr.contains ref (not_found_msg ref) = true.
Proof.
  unfold not_found_msg. apply contains_append, contains_startswith, startswith_append.
Qed.

(** X15.  The resolver raises a [ParameterError] only when the
    reference was not found under the prefix and its download raised a
    [ValueError]; the message is then the "not found" text for that
    reference, and it contains the reference as it was given. *)
Theorem not_found_names_reference (w : World) (self : RenderGeojsonFilter)
    (ref : string) (st : State) (msg : string) :
  (_resolve_url w self ref st).2 = inl (ParameterError msg) ->
  msg = not_found_msg ref /\
  PyStr.contains ref msg = true /\
  found_locally w self ref = false /\
  exists cls m, urlretrieve w ref = inl (LibValueError cls m).
Proof.
  rewrite _resolve_url_run. cbn [snd].
  unfold resolve_result, found_locally, fetch_result.
  assert (Hfetch :
    match urlretrieve w ref with
    | inl e => inl (if is_ValueError (Raised e) then ParameterError (not_found_msg ref)
                    else Raised e)
    | inr f => inr f
    end = (inl (ParameterError msg) : result string) ->
    msg = not_found_msg ref /\ exists cls m, urlretrieve w ref = inl (LibValueError cls m)).
  { destruct (urlretrieve w ref) as [[cls m|cls m]|f]; cbn; intros [= <-].
    split; [reflexivity|]. by exists cls, m. }
  destruct (local_candidate self ref) as [p|].
  - destruct (path_exists w p); [discriminate|].
    intros H. destruct (Hfetch H) as [-> Hex].
    split; [reflexivity|]. split; [apply not_found_msg_contains|]. by split.
  - intros H. destruct (Hfetch H) as [-> Hex].
    split; [reflexivity|]. split; [apply not_found_msg_contains|]. by split.
Qed.

Lemma not_found_names_reference_witness :
  PyStr.contains "missing.geojson" (not_found_msg "missing.geojson") = true.
Proof.
  apply (not_found_names_reference (offline data_files) data_prefix "missing.geojson"
           (request_with []) (not_found_msg "missing.geojson")).
  vm_compute. reflexivity.
Defined.

Lemma replace_differs (n1 n2 s : string) :
  (forall r1 r2, n1 +:+ r1 <> n2 +:+ r2) ->
  PyStr.contains "$type" s = true ->
  PyStr.replace "$type" n1 s <> PyStr.replace "$type" n2 s.
Proof.
  intros Hn. unfold PyStr.replace.
  induction s as [|c s IH]; [discriminate|].
  cbn [PyStr.contains PyStr.replace_from].
  destruct (PyStr.startswith "$type" (String c s)); [intros _; apply Hn|].
  cbn [orb]. intros Hc Heq. injection Heq as Heq. by apply IH.
Qed.

Lemma replace_changes (n s : string) :
  (forall r r', String "$" r <> n +:+ r') ->
  PyStr.contains "$type" s = true ->
  s <> PyStr.replace "$type" n s.
Proof.
  intros Hn. unfold PyStr.replace.
  induction s as [|c s IH]; [discriminate|].
  cbn [PyStr.contains PyStr.replace_from].
  destruct (PyStr.startswith "$type" (String c s)) eqn:Hs.
  - intros _. cbn [PyStr.startswith] in Hs.
    destruct (Ascii.eqb_spec "$" c) as [<-|]; [apply Hn|discriminate Hs].
  - cbn [orb]. intros Hc Heq. injection Heq as Heq. by apply IH.
Qed.

(** X16.  When the style reference contains [$type], the three
    references resolved for the polygon, line and point layers are
    pairwise different, and each differs from the reference as given:
    three distinct resolutions are made. *)
Theorem style_refs_distinct (style : string) :
  PyStr.contains "$type" style = true ->
  NoDup (style_refs style) /\ style ∉ style_refs style.
Proof.
  intros Hc. unfold style_refs. rewrite Hc.
  assert (Hpl : PyStr.replace "$type" "polygons" style <> PyStr.replace "$type" "lines" style).
  { apply replace_differs; [|exact Hc]. intros r1 r2 H. cbv in H. discriminate H. }
  assert (Hpp : PyStr.replace "$type" "polygons" style <> PyStr.replace "$type" "points" style).
  { apply replace_differs; [|exact Hc]. intros r1 r2 H. cbv in H. congruence. }
  assert (Hlp : PyStr.replace "$type" "lines" style <> PyStr.replace "$type" "points" style).
  { apply replace_differs; [|exact Hc]. intros r1 r2 H. cbv in H. discriminate H. }
  assert (H1 : style <> PyStr.replace "$type" "polygons" style).
  { apply replace_changes; [|exact Hc]. intros r r' H. cbv in H. discriminate H. }
  assert (H2 : style <> PyStr.replace "$type" "lines" style).
  { apply replace_changes; [|exact Hc]. intros r r' H. cbv in H. discriminate H. }
  assert (H3 : style <> PyStr.replace "$type" "points" style).
  { apply replace_changes; [|exact Hc]. intros r r' H. cbv in H. discriminate H. }
  split.
  - rewrite !NoDup_cons, NoDup_nil, !elem_of_cons, !elem_of_nil. tauto.
  - rewrite !elem_of_cons, elem_of_nil. tauto.
Qed.

Lemma style_refs_distinct_witness :
  NoDup (style_refs "style_$type.qml") /\ "style_$type.qml" ∉ style_refs "style_$type.qml".
Proof. apply style_refs_distinct. reflexivity. Defined.

(** X17.  With a prefix configured, a reference that is not absolute is
    looked up under the prefix: the one path whose existence the
    resolver checks is the prefix, a slash unless the prefix ends with
    one, and the reference, so it starts with the prefix. *)
Theorem relative_reference_under_prefix (w : World) (self : RenderGeojsonFilter)
    (prefix ref : string) (st : State) (p : string) :
  prefix_path self = Some prefix -> prefix <> "" ->
  PyStr.startswith "/" ref = false ->
  EvExists p ∈ new_calls st (_resolve_url w self ref st).1 ->
  p = prefix +:+ (if PyStr.endswith_char "/" prefix then "" else "/") +:+ ref /\
  PyStr.startswith prefix p = true.
Proof.
  intros Hp Hne Hrel. rewrite _resolve_url_run. cbn [fst].
  rewrite new_calls_with_calls. unfold resolve_events, local_candidate. rewrite Hp.
  destruct (String.eqb_spec prefix "") as [->|_]; [done|].
  assert (Hj : os_path_join prefix ref
               = prefix +:+ (if PyStr.endswith_char "/" prefix then "" else "/") +:+ ref).
  { unfold os_path_join. rewrite Hrel.
    destruct (String.eqb_spec prefix "") as [->|_]; [done|].
    cbn [orb]. by destruct (PyStr.endswith_char "/" prefix). }
  intros Hin.
  assert (p = os_path_join prefix ref) as ->.
  { rewrite !elem_of_cons in Hin.
    destruct Hin as [Hin|[Hin|Hin]]; [discriminate Hin | by injection Hin |].
    destruct (path_exists w (os_path_join prefix ref)).
    - by apply elem_of_nil in Hin.
    - apply list_elem_of_singleton in Hin. discriminate Hin. }
  split; [exact Hj|]. rewrite Hj. apply startswith_append.
Qed.

Lemma relative_reference_under_prefix_witness :
  "/data/map.geojson" = "/data" +:+ "/" +:+ "map.geojson" /\
  PyStr.startswith "/data" "/data/map.geojson" = true.
Proof.
  apply (relative_reference_under_prefix (offline data_files) data_prefix "/data"
           "map.geojson" (request_with []) "/data/map.geojson").
  - reflexivity.
  - discriminate.
  - reflexivity.
  - vm_compute. apply list_elem_of_further, list_elem_of_here.
Defined.
